(** * Gentle Pomodoro: session lifecycle and log-entry derivation

    A shallow embedding of the two classes that make up the core of the
    plugin, [TimerEngine] (main.ts) and [LogManager] (logManager.ts),
    together with the properties the specification states about them.

    Conventions of the embedding.
    - A JavaScript number that holds a count of milliseconds, seconds or
      minutes is a [Z]; the source only adds, subtracts, multiplies by
      constants and compares such values, and [Math.floor (x / 1000)] is
      [x / 1000] on [Z] (floor division).
    - A [moment] object is the instant it denotes, in milliseconds since the
      epoch.  Every ambient clock read ([moment()], [Date.now()]) is an
      explicit argument of the operation that performs it, one argument per
      call site.
    - The vault is a pair of a set of folders and a finite map from paths to
      file contents.
    - Listeners are represented by the trace of the snapshots emitted to
      them. *)

From Stdlib Require Import ZArith String Ascii List Lia DecimalString.
From stdpp Require Import base option gmap strings list.

Local Open Scope Z_scope.
Local Open Scope string_scope.

(** ** JavaScript primitives used by the source *)

Module JS.

(** [`${n}`] for an integral number [n] (of magnitude below 10^21, where
    JavaScript prints all the digits). *)
Definition of_number (n : Z) : string := NilZero.string_of_int (Z.to_int n).

(** [Number.MAX_SAFE_INTEGER], 2^53 - 1: up to this magnitude the integers
    are numbers of JavaScript and their sums and products are exact. *)
Definition MAX_SAFE_INTEGER : Z := 9007199254740991.

(** [x || d] on strings: the empty string is falsy. *)
Definition or_default (x d : string) : string :=
  if String.eqb x "" then d else x.

(** Truthiness of an optional string ([string | undefined]). *)
Definition truthy (x : option string) : bool :=
  match x with
  | None => false
  | Some p => negb (String.eqb p "")
  end.

(** [`${x}`] for an optional string. *)
Definition of_optional (x : option string) : string :=
  match x with
  | None => "undefined"
  | Some p => p
  end.

(** The line feed, as a one-character string. *)
Definition nl : string := String (ascii_of_N 10) EmptyString.

(** The double-quote character, as a one-character string. *)
Definition dquote : string := String (ascii_of_N 34) EmptyString.

Definition hex_digit (n : N) : ascii :=
  ascii_of_N (if (n <? 10)%N then 48 + n else 87 + n)%N.

(** One code unit inside [JSON.stringify] of a string (QuoteJSONString):
    the quote, the backslash and the control characters are escaped. *)
Definition json_escape (c : ascii) : string :=
  let n := N_of_ascii c in
  if (n =? 34)%N then "\" +:+ dquote
  else if (n =? 92)%N then "\\"
  else if (n =? 8)%N then "\b"
  else if (n =? 12)%N then "\f"
  else if (n =? 10)%N then "\n"
  else if (n =? 13)%N then "\r"
  else if (n =? 9)%N then "\t"
  else if (n <? 32)%N then
    "\u00" +:+ String (hex_digit (n / 16)) (String (hex_digit (n mod 16)) "")
  else String c "".

Fixpoint json_chars (s : string) : string :=
  match s with
  | EmptyString => ""
  | String c rest => json_escape c +:+ json_chars rest
  end.

Definition json_string (s : string) : string :=
  dquote +:+ json_chars s +:+ dquote.

Fixpoint json_elements (l : list string) : string :=
  match l with
  | [] => ""
  | [x] => json_string x
  | x :: rest => json_string x +:+ "," +:+ json_elements rest
  end.

(** [JSON.stringify] of an array of strings. *)
Definition stringify (l : list string) : string :=
  "[" +:+ json_elements l +:+ "]".

End JS.

(** ** The moment library

    The source reaches the library through [declare const moment: any]; its
    code is not part of the repository.  Three of its operations are used:
    [moment()] (the current instant, an argument here), [a.diff (b)]
    (milliseconds from [b] to [a]) and [m.format (pattern)] with the two
    patterns [YYYY-MM-DD] and [YYYY-MM-DD HH:mm:ss]. *)

Module Moment.

(** An instant: milliseconds since 1970-01-01T00:00:00Z. *)
Definition t : Type := Z.

(** [a.diff (b)]: the milliseconds from [b] to [a]. *)
Definition diff (a b : t) : Z := a - b.

Fixpoint zeros (n : nat) : string :=
match n with
| O => EmptyString
| S k => String "0" (zeros k)
end.

(** The padding of a field: the absolute value with zeros on the left up to
    [width] digits, and a minus sign in front of a negative number. *)
Definition zeroFill (n : Z) (width : nat) : string :=
let digits := JS.of_number (Z.abs n) in
(if (n <? 0)%Z then "-" else "") +:+
zeros (width - String.length digits) +:+ digits.

(** Civil date of a day number counted from 1970-01-01. *)
Definition civil_from_days (days : Z) : Z * Z * Z :=
let z := days + 719468 in
let era := z / 146097 in
let doe := z - era * 146097 in
let yoe := (doe - doe / 1460 + doe / 36524 - doe / 146096) / 365 in
let doy := doe - (365 * yoe + yoe / 4 - yoe / 100) in
let mp := (5 * doy + 2) / 153 in
let d := doy - (153 * mp + 2) / 5 + 1 in
let m := if (mp <? 10)%Z then mp + 3 else mp - 9 in
let y := yoe + era * 400 + (if (m <=? 2)%Z then 1 else 0) in
(y, m, d).

Section Zone.

(** The offset of local time from UTC, in minutes, at a given instant. *)
Variable utcOffset : t -> Z.

Definition local (m : t) : Z := m + utcOffset m * 60000.

(** Modelled from the spec: the fixed timestamp format of the log, produced
    by [m.format] of the moment library, which is not in the repository.  The
    pattern [YYYY-MM-DD] renders the calendar date of the instant in local
    time on the proleptic Gregorian calendar, each field padded with
    zeros. *)
Definition format_date (m : t) : string :=
let '(y, mo, d) := civil_from_days (local m / 86400000) in
zeroFill y 4 +:+ "-" +:+ zeroFill mo 2 +:+ "-" +:+ zeroFill d 2.

(** Modelled from the spec: the [HH:mm:ss] part of the pattern, the time of
    day on the 24-hour clock. *)
Definition format_clock (m : t) : string :=
let ms := local m mod 86400000 in
zeroFill (ms / 3600000) 2 +:+ ":" +:+
zeroFill (ms / 60000 mod 60) 2 +:+ ":" +:+
zeroFill (ms / 1000 mod 60) 2.

(** Modelled from the spec: [m.format] with the pattern
    [YYYY-MM-DD HH:mm:ss], the date followed by the time of day. *)
Definition format_datetime (m : t) : string :=
format_date m +:+ " " +:+ format_clock m.

End Zone.

(** The instant of a civil date and time of day in UTC (days from civil). *)
Definition utc (y mo d h mi s : Z) : t :=
let y' := if (mo <=? 2)%Z then y - 1 else y in
let era := y' / 400 in
let yoe := y' - era * 400 in
let mp := if (mo <=? 2)%Z then mo + 9 else mo - 3 in
let doy := (153 * mp + 2) / 5 + d - 1 in
let doe := yoe * 365 + yoe / 4 - yoe / 100 + doy in
(era * 146097 + doe - 719468) * 86400000 + h * 3600000 + mi * 60000 + s * 1000.

Definition UTC : t -> Z := fun _ => 0.

End Moment.

(** ** The vault (the part of the host's file system the recorder touches) *)

Module Vault.

Record t : Type := mk {
  folders : gset string;
  files : gmap string string
}.

(** [adapter.exists (path)]. *)
Definition exists_ (path : string) (v : t) : bool :=
bool_decide (path ∈ folders v) || bool_decide (is_Some (files v !! path)).

(** [getAbstractFileByPath (path) instanceof TFile]. *)
Definition isFile (path : string) (v : t) : bool :=
bool_decide (is_Some (files v !! path)).

(** [vault.createFolder (path)]. *)
Definition createFolder (path : string) (v : t) : t :=
mk ({[path]} ∪ folders v) (files v).

(** [vault.create (path, data)]. *)
Definition create (path data : string) (v : t) : t :=
mk (folders v) (<[path := data]> (files v)).

(** [vault.append (file, data)]. *)
Definition append (path data : string) (v : t) : t :=
match files v !! path with
| Some old => mk (folders v) (<[path := old +:+ data]> (files v))
| None => v
end.

Definition empty : t := mk ∅ ∅.

End Vault.

(** ** logManager.ts *)

Module LogManager.

Inductive PomoMode : Type := focus | break.

Inductive Status : Type := finished | cancelled.

Definition status_text (s : Status) : string :=
match s with
| finished => "finished"
| cancelled => "cancelled"
end.

(** An element of [SessionLog.pauses]. *)
Record Pause : Type := mkPause {
  pause_start : Moment.t;
  pause_end : Moment.t
}.

(** [Partial<SessionLog>] as [startSession] builds it: every field is
    present except [endTime], which [endSession] assigns. *)
Record SessionLog : Type := mkSession {
  mode : PomoMode;
  taskName : string;
  taskPath : option string;
  scheduledDurationMinutes : Z;
  startTime : Moment.t;
  endTime : option Moment.t;
  pauses : list Pause;
  status : Status
}.

(** The two private fields of the class [LogManager]. *)
Record t : Type := mkLog {
  currentSession : option SessionLog;
  currentPauseStart : option Moment.t
}.

Definition initial : LogManager.t := mkLog None None.

Definition push_pause (p : Pause) (s : SessionLog) : SessionLog :=
mkSession (mode s) (taskName s) (taskPath s) (scheduledDurationMinutes s)
  (startTime s) (endTime s) (pauses s ++ [p]) (status s).

Definition resumeSession (now : Moment.t) (lm : LogManager.t) : LogManager.t :=
match currentSession lm, currentPauseStart lm with
| Some s, Some pauseStart =>
    mkLog (Some (push_pause (mkPause pauseStart now) s)) None
| _, _ => lm
end.

Definition startSession (now : Moment.t) (m : PomoMode) (name : string)
    (durationMinutes : Z) (path : option string) (lm : LogManager.t) : LogManager.t :=
match currentSession lm with
| Some _ => resumeSession now lm
| None =>
    mkLog
      (Some (mkSession m (JS.or_default name "No Task") path durationMinutes
               now None [] cancelled))
      (currentPauseStart lm)
end.

Definition pauseSession (now : Moment.t) (lm : LogManager.t) : LogManager.t :=
match currentSession lm with
| None => lm
| Some s => mkLog (Some s) (Some now)
end.

Definition updateTask (newTaskName : string) (newTaskPath : option string)
    (lm : LogManager.t) : LogManager.t :=
match currentSession lm with
| Some s =>
    mkLog
      (Some (mkSession (mode s) (JS.or_default newTaskName "No Task") newTaskPath
               (scheduledDurationMinutes s) (startTime s) (endTime s)
               (pauses s) (status s)))
      (currentPauseStart lm)
| None => lm
end.

Definition set_end (e : Moment.t) (st : Status) (s : SessionLog) : SessionLog :=
mkSession (mode s) (taskName s) (taskPath s) (scheduledDurationMinutes s)
  (startTime s) (Some e) (pauses s) st.

(** [endSession] up to its [await]: the open pause is closed (clock read
    [tPause]), then [endTime] (clock read [tEnd]) and [status] are assigned.
    With no active session the function has already returned. *)
Definition endSession_sync (tPause tEnd : Moment.t) (st : Status)
    (lm : LogManager.t) : LogManager.t :=
match currentSession lm with
| None => lm
| Some _ =>
    let lm1 :=
      match currentPauseStart lm with
      | Some _ => resumeSession tPause lm
      | None => lm
      end in
    mkLog (option_map (set_end tEnd st) (currentSession lm1)) (currentPauseStart lm1)
end.

(** *** writeLog: the derivation of the line *)

(** The accumulation [totalPauseMs += p.end.diff (p.start)] over the pauses,
    in the order [map] visits them. *)
Definition totalPauseMs (ps : list Pause) : Z :=
fold_left (fun acc p => acc + Moment.diff (pause_end p) (pause_start p)) ps 0.

Definition totalDurationMs (s : SessionLog) (e : Moment.t) : Z :=
Moment.diff e (startTime s) - totalPauseMs (pauses s).

Definition totalSeconds (s : SessionLog) (e : Moment.t) : Z :=
totalDurationMs s e / 1000.

Definition scheduledSeconds (s : SessionLog) : Z :=
scheduledDurationMinutes s * 60.

Definition wikilink (path name : string) : string :=
"[[" +:+ path +:+ "|" +:+ name +:+ "]]".

Definition taskStr (s : SessionLog) : string :=
let plain := if String.eqb (taskName s) "No Task" then "No Task" else taskName s in
if JS.truthy (taskPath s) && negb (String.eqb (taskName s) "No Task")
then wikilink (JS.of_optional (taskPath s)) (taskName s)
else plain.

Definition fileSuffix : string := "-gentle-pomodoro-log.md".

Section Host.

(** [normalizePath] of the host API. *)
Variable normalizePath : string -> string.

(** The local time zone. *)
Variable utcOffset : Moment.t -> Z.

Definition pauseString (p : Pause) : string :=
Moment.format_datetime utcOffset (pause_start p) +:+ " - " +:+
Moment.format_datetime utcOffset (pause_end p).

Definition pauseStrings (s : SessionLog) : list string :=
map pauseString (pauses s).

Definition fileName (s : SessionLog) : string :=
Moment.format_date utcOffset (startTime s) +:+ fileSuffix.

Definition filePath (folderPath : string) (s : SessionLog) : string :=
normalizePath (normalizePath folderPath +:+ "/" +:+ fileName s).

(** The line, for a record whose [endTime] is [e]. *)
Definition line (s : SessionLog) (e : Moment.t) : string :=
let startFmt := Moment.format_datetime utcOffset (startTime s) in
let endFmt := Moment.format_datetime utcOffset e in
match mode s with
| focus =>
    "- 🍅 Focus | Task:: " +:+ taskStr s +:+
    " | Start:: " +:+ startFmt +:+
    " | End:: " +:+ endFmt +:+
    " | Scheduled:: " +:+ JS.of_number (scheduledSeconds s) +:+
    " | Pauses:: " +:+ JS.stringify (pauseStrings s) +:+
    " | Total:: " +:+ JS.of_number (totalSeconds s e) +:+
    " | Status:: " +:+ status_text (status s)
| break =>
    "- ☕ Rest | Start:: " +:+ startFmt +:+
    " | End:: " +:+ endFmt +:+
    " | Scheduled:: " +:+ JS.of_number (scheduledSeconds s) +:+
    " | Total:: " +:+ JS.of_number (totalSeconds s e)
end.

(** How a call of [writeLog] ends: it returns, or it raises the TypeError of
    reading a property of [undefined]; either way with the vault as it is at
    that point. *)
Inductive Outcome : Type :=
| Returned (v : Vault.t)
| Raised (v : Vault.t).

Definition outcome_vault (o : Outcome) : Vault.t :=
match o with
| Returned v => v
| Raised v => v
end.

Definition writeLog (folderPath : string) (s : SessionLog) (v : Vault.t) : Outcome :=
if String.eqb folderPath "" then Returned v
else
  let normalizedFolder := normalizePath folderPath in
  let v1 :=
    if Vault.exists_ normalizedFolder v then v
    else Vault.createFolder normalizedFolder v in
  let path := filePath folderPath s in
  match endTime s with
  | None => Raised v1
  | Some e =>
      if Vault.exists_ path v1 then
        if Vault.isFile path v1
        then Returned (Vault.append path (JS.nl +:+ line s e) v1)
        else Returned v1
      else Returned (Vault.create path (line s e) v1)
  end.

(** [endSession] after its [await]: the line is written for the record the
    recorder holds, then both fields are cleared.  When [writeLog] raises,
    the promise of [endSession] is rejected and the fields stay as they
    are. *)
Definition endSession_settle (folderPath : string) (lm : LogManager.t) (v : Vault.t)
  : LogManager.t * Outcome :=
match currentSession lm with
| None => (lm, Returned v)
| Some s =>
    match writeLog folderPath s v with
    | Returned v' => (mkLog None None, Returned v')
    | Raised v' => (lm, Raised v')
    end
end.

(** [await endSession (status)] with nothing else running in between: the
    recorder afterwards, and how the call ends. *)
Definition endSession (folderPath : string) (tPause tEnd : Moment.t) (st : Status)
    (lm : LogManager.t) (v : Vault.t) : LogManager.t * Outcome :=
match currentSession lm with
| None => (lm, Returned v)
| Some _ => endSession_settle folderPath (endSession_sync tPause tEnd st lm) v
end.

End Host.

End LogManager.

(** ** main.ts: the class TimerEngine *)

Module TimerEngine.

Import LogManager.

(** The settings the engine and the recorder read (the sound and status-bar
    settings play no part in the state machine). *)
Record GentlePomoSettings : Type := mkSettings {
  focusMinutes : Z;
  breakMinutes : Z;
  autoStartBreak : bool;
  autoStartFocus : bool;
  logFolderPath : string
}.

Definition DEFAULT_SETTINGS : GentlePomoSettings :=
mkSettings 25 5 false false "".

Record TimerState : Type := mkState {
  mode : PomoMode;
  isRunning : bool;
  remainingMs : Z;
  totalMs : Z
}.

(** The plugin: its settings, the fields of the engine, the recorder and the
    vault.  [intervalActive] stands for [intervalId !== null]; [emitted] is
    the trace of snapshots handed to the listeners. *)
Record GentlePomoPlugin : Type := mkPlugin {
  settings : GentlePomoSettings;
  state : TimerState;
  intervalActive : bool;
  targetTime : option Z;
  currentTaskName : string;
  currentTaskPath : option string;
  emitted : list TimerState;
  logManager : LogManager.t;
  vault : Vault.t
}.

Definition set_state (st : TimerState) (w : GentlePomoPlugin) : GentlePomoPlugin :=
mkPlugin (settings w) st (intervalActive w) (targetTime w) (currentTaskName w)
  (currentTaskPath w) (emitted w) (logManager w) (vault w).

Definition set_interval (b : bool) (w : GentlePomoPlugin) : GentlePomoPlugin :=
mkPlugin (settings w) (state w) b (targetTime w) (currentTaskName w)
  (currentTaskPath w) (emitted w) (logManager w) (vault w).

Definition set_target (t : option Z) (w : GentlePomoPlugin) : GentlePomoPlugin :=
mkPlugin (settings w) (state w) (intervalActive w) t (currentTaskName w)
  (currentTaskPath w) (emitted w) (logManager w) (vault w).

Definition set_task (name : string) (path : option string) (w : GentlePomoPlugin) : GentlePomoPlugin :=
mkPlugin (settings w) (state w) (intervalActive w) (targetTime w) name
  path (emitted w) (logManager w) (vault w).

Definition set_log (lm : LogManager.t) (w : GentlePomoPlugin) : GentlePomoPlugin :=
mkPlugin (settings w) (state w) (intervalActive w) (targetTime w) (currentTaskName w)
  (currentTaskPath w) (emitted w) lm (vault w).

Definition set_vault (v : Vault.t) (w : GentlePomoPlugin) : GentlePomoPlugin :=
mkPlugin (settings w) (state w) (intervalActive w) (targetTime w) (currentTaskName w)
  (currentTaskPath w) (emitted w) (logManager w) v.

Definition minutesFor (m : PomoMode) (cfg : GentlePomoSettings) : Z :=
match m with
| focus => focusMinutes cfg
| break => breakMinutes cfg
end.

Definition otherMode (m : PomoMode) : PomoMode :=
match m with
| focus => break
| break => focus
end.

(** The constructor, given the loaded settings and the vault. *)
Definition init (cfg : GentlePomoSettings) (v : Vault.t) : GentlePomoPlugin :=
let total := focusMinutes cfg * 60 * 1000 in
mkPlugin cfg (mkState focus false total total) false None "No Task" None []
  LogManager.initial v.

Definition emit (w : GentlePomoPlugin) : GentlePomoPlugin :=
mkPlugin (settings w) (state w) (intervalActive w) (targetTime w) (currentTaskName w)
  (currentTaskPath w) (emitted w ++ [state w]) (logManager w) (vault w).

Definition clearLoop (w : GentlePomoPlugin) : GentlePomoPlugin := set_interval false w.

(** [startLoop]; [now] is the clock read of its safety branch. *)
Definition startLoop (now : Z) (w : GentlePomoPlugin) : GentlePomoPlugin :=
let w1 := clearLoop w in
let w2 :=
  match targetTime w1 with
  | None =>
      if isRunning (state w1)
      then set_target (Some (now + remainingMs (state w1))) w1
      else w1
  | Some _ => w1
  end in
set_interval true w2.

(** One firing of the interval callback at clock read [now]. *)
Definition tick (now : Z) (w : GentlePomoPlugin) : GentlePomoPlugin :=
match targetTime w with
| None => w
| Some target =>
    if isRunning (state w)
    then
      emit (set_state (mkState (mode (state w)) true (target - now) (totalMs (state w))) w)
    else w
end.

Definition setTask (name : string) (path : option string) (w : GentlePomoPlugin) : GentlePomoPlugin :=
let w1 := set_task name path w in
set_log (updateTask name path (logManager w1)) w1.

(** [switchMode (mode, autoStart)].  [autoStart] is [None] for [false] and
    [Some (tLog, tNow)] for [true], where [tLog] and [tNow] are the two clock
    reads of that branch ([moment()] in [startSession], then [Date.now()]). *)
Definition switchMode (m : PomoMode) (autoStart : option (Moment.t * Z))
    (w : GentlePomoPlugin) : GentlePomoPlugin :=
let minutes := minutesFor m (settings w) in
let total := minutes * 60 * 1000 in
let w1 := emit (set_state (mkState m (bool_decide (is_Some autoStart)) total total) w) in
match autoStart with
| Some (tLog, tNow) =>
    let w2 :=
      set_log
        (startSession tLog m (currentTaskName w1) minutes (currentTaskPath w1)
           (logManager w1)) w1 in
    startLoop tNow (set_target (Some (tNow + total)) w2)
| None => clearLoop (set_target None w1)
end.

Definition start (tLog : Moment.t) (tNow : Z) (w : GentlePomoPlugin) : GentlePomoPlugin :=
if isRunning (state w) then w
else
  let st := state w in
  let w1 := set_state (mkState (mode st) true (remainingMs st) (totalMs st)) w in
  let minutes := minutesFor (mode (state w1)) (settings w1) in
  let w2 :=
    set_log
      (startSession tLog (mode (state w1)) (currentTaskName w1) minutes
         (currentTaskPath w1) (logManager w1)) w1 in
  let w3 := set_target (Some (tNow + remainingMs (state w2))) w2 in
  startLoop tNow (emit w3).

Definition pause (tLog : Moment.t) (w : GentlePomoPlugin) : GentlePomoPlugin :=
if negb (isRunning (state w)) then w
else
  let w1 := set_log (pauseSession tLog (logManager w)) w in
  let st := state w1 in
  let w2 := set_state (mkState (mode st) false (remainingMs st) (totalMs st)) w1 in
  emit (clearLoop (set_target None w2)).

Definition addMinutes (delta : Z) (w : GentlePomoPlugin) : GentlePomoPlugin :=
let deltaMs := delta * 60 * 1000 in
let newTotal0 := totalMs (state w) + deltaMs in
let minTotal := 60 * 1000 in
let newTotal := if (newTotal0 <? minTotal)%Z then minTotal else newTotal0 in
let oldRemaining := remainingMs (state w) in
let newRemaining0 := oldRemaining + deltaMs in
let newRemaining := if (newRemaining0 >? newTotal)%Z then newTotal else newRemaining0 in
let w1 := set_state (mkState (mode (state w)) (isRunning (state w)) newRemaining newTotal) w in
let w2 :=
  match targetTime w1 with
  | Some target =>
      if isRunning (state w1)
      then set_target (Some (target + (newRemaining - oldRemaining))) w1
      else w1
  | None => w1
  end in
emit w2.

Definition mode_eqb (a b : PomoMode) : bool :=
match a, b with
| focus, focus => true
| break, break => true
| _, _ => false
end.

Definition updateDuration (m : PomoMode) (minutes : Z) (w : GentlePomoPlugin) : GentlePomoPlugin :=
if mode_eqb (mode (state w)) m then
  let st := state w in
  let newTotal := minutes * 60 * 1000 in
  let remaining :=
    if negb (isRunning st) && (remainingMs st =? totalMs st)%Z
    then newTotal else remainingMs st in
  emit (set_state (mkState (mode st) (isRunning st) remaining newTotal) w)
else w.

Section Host.

Variable normalizePath : string -> string.
Variable utcOffset : Moment.t -> Z.

(** The part of [logManager.endSession] that runs once the handler that
    called it has returned. *)
Definition settle (w : GentlePomoPlugin) : GentlePomoPlugin :=
let '(lm, o) :=
  endSession_settle normalizePath utcOffset (logFolderPath (settings w))
    (logManager w) (vault w) in
set_vault (outcome_vault o) (set_log lm w).

(** A handler that calls [logManager.endSession (st)] without awaiting it and
    then runs [rest]: the recorder's synchronous part, then [rest], and the
    write and the clearing of the recorder after the handler has returned.
    A rejection of the promise is not seen by the handler. *)
Definition endSession_then (st : Status) (tPause tEnd : Moment.t)
    (rest : GentlePomoPlugin -> GentlePomoPlugin) (w : GentlePomoPlugin) : GentlePomoPlugin :=
match currentSession (logManager w) with
| None => rest w
| Some _ =>
    settle (rest (set_log (endSession_sync tPause tEnd st (logManager w)) w))
end.

Definition autoStartFor (flag : bool) (tLog : Moment.t) (tNow : Z)
  : option (Moment.t * Z) :=
if flag then Some (tLog, tNow) else None.

(** [handleFinished]; the chime is not part of the state. *)
Definition handleFinished (tPause tEnd tLog : Moment.t) (tNow : Z) (w : GentlePomoPlugin) : GentlePomoPlugin :=
endSession_then finished tPause tEnd
  (fun w1 =>
     match mode (state w1) with
     | focus =>
         switchMode break (autoStartFor (autoStartBreak (settings w1)) tLog tNow) w1
     | break =>
         switchMode focus (autoStartFor (autoStartFocus (settings w1)) tLog tNow) w1
     end) w.

Definition finish (tPause tEnd tLog : Moment.t) (tNow : Z) (w : GentlePomoPlugin) : GentlePomoPlugin :=
handleFinished tPause tEnd tLog tNow w.

Definition skipStatus (m : PomoMode) : Status :=
match m with
| focus => cancelled
| break => finished
end.

Definition skip (tPause tEnd : Moment.t) (w : GentlePomoPlugin) : GentlePomoPlugin :=
let st := skipStatus (mode (state w)) in
endSession_then st tPause tEnd
  (fun w1 => switchMode (otherMode (mode (state w1))) None w1) w.

Definition cancel (tPause tEnd : Moment.t) (w : GentlePomoPlugin) : GentlePomoPlugin :=
endSession_then cancelled tPause tEnd
  (fun w1 => switchMode (mode (state w1)) None w1) w.

(** [reset] as src/main.ts has it. *)
Definition reset (tPause tEnd : Moment.t) (w : GentlePomoPlugin) : GentlePomoPlugin :=
cancel tPause tEnd w.

End Host.

End TimerEngine.

(** ** The later revision of TimerEngine.reset (src/unnamed/part_000)

    That revision of the engine keeps a [taskName] in [TimerState] as well;
    its [reset] reads and writes none of it. *)

Module Revised.

Import LogManager TimerEngine.

Definition reset (tNow : Z) (w : GentlePomoPlugin) : GentlePomoPlugin :=
let minutes := minutesFor (mode (state w)) (settings w) in
let total := minutes * 60 * 1000 in
let st := state w in
let w1 := set_state (mkState (mode st) (isRunning st) total total) w in
let w2 :=
  if isRunning (state w1)
  then set_target (Some (tNow + total)) w1
  else clearLoop (set_target None w1) in
emit w2.

End Revised.

(** ** The specification's wording of the derived quantities *)

Module SpecWords.

Import LogManager.

(** Sum over all closed pause intervals of (pauseEnd - pauseStart). *)
Fixpoint sum_pauses (ps : list Pause) : Z :=
match ps with
| [] => 0
| p :: rest => (pause_end p - pause_start p) + sum_pauses rest
end.

(** floor (((End - Start) - sum of the pauses) / 1000). *)
Definition Total (s : SessionLog) (e : Moment.t) : Z :=
((e - startTime s) - sum_pauses (pauses s)) / 1000.



(** The finalized record of a session: the record [s] the recorder holds,
    with the open pause (if any) closed at [tPause], ended at [tEnd] with
    status [st]. *)
Definition finalized (pending : option Moment.t) (s : SessionLog)
    (tPause tEnd : Moment.t) (st : Status) : SessionLog :=
set_end tEnd st
  match pending with
  | Some pauseStart => push_pause (mkPause pauseStart tPause) s
  | None => s
  end.

(** A task path counts as set when it is present and not the empty string. *)
Definition path_set (path : option string) : Prop :=
exists p, path = Some p /\ p <> "".

End SpecWords.

(** ** Strings that JSON.stringify quotes without escapes *)

Definition plain_char (c : ascii) : bool :=
let n := N_of_ascii c in
((32 <=? n) && negb (n =? 34) && negb (n =? 92))%N.

Fixpoint plain (s : string) : bool :=
match s with
| EmptyString => true
| String c rest => plain_char c && plain rest
end.


(** ** Concrete sessions

    The sessions of the specification's scenarios, in a vault whose log
    folder is already a normalized path and with local time equal to UTC. *)

Module Scenario.

Import LogManager.

Definition normalizePath (p : string) : string := p.

Definition t_14_00 : Moment.t := Moment.utc 2025 12 21 14 0 0.
Definition t_14_10 : Moment.t := Moment.utc 2025 12 21 14 10 0.
Definition t_14_11 : Moment.t := Moment.utc 2025 12 21 14 11 0.
Definition t_14_12 : Moment.t := Moment.utc 2025 12 21 14 12 0.
Definition t_14_25 : Moment.t := Moment.utc 2025 12 21 14 25 0.
Definition t_23_58 : Moment.t := Moment.utc 2025 12 21 23 58 0.
Definition t_00_03 : Moment.t := Moment.utc 2025 12 22 0 3 0.

Definition task : string := "Task Name #tag".
Definition taskFile : option string := Some "Path/To/File.md".

(** Start at 14:00, pause from 14:10 to 14:12, stop at 14:25. *)
Definition started : LogManager.t :=
startSession t_14_00 focus task 25 taskFile LogManager.initial.

Definition paused : LogManager.t := pauseSession t_14_10 started.

Definition resumed : LogManager.t :=
startSession t_14_12 focus task 25 taskFile paused.

Definition record : SessionLog :=
mkSession focus task taskFile 25 t_14_00 (Some t_14_25)
  [mkPause t_14_10 t_14_12] finished.

(** A rest of five minutes. *)
Definition rest_record : SessionLog :=
mkSession break "No Task" None 5 t_14_25 (Some (Moment.utc 2025 12 21 14 30 0))
  [] finished.

(** A session that runs over midnight. *)
Definition midnight_record : SessionLog :=
mkSession focus "No Task" None 25 t_23_58 (Some t_00_03) [] finished.

Definition logFolder : string := "Pomodoro_logs".

Definition settings : TimerEngine.GentlePomoSettings :=
TimerEngine.mkSettings 25 5 false false logFolder.

(** The plugin after loading, after Start at 14:00, and after Pause at
    14:10. *)
Definition loaded : TimerEngine.GentlePomoPlugin := TimerEngine.init settings Vault.empty.

Definition running : TimerEngine.GentlePomoPlugin := TimerEngine.start t_14_00 t_14_00 loaded.

Definition halted : TimerEngine.GentlePomoPlugin := TimerEngine.pause t_14_10 running.

(** The same with a task picked before Start, resumed at 14:12. *)
Definition working : TimerEngine.GentlePomoPlugin :=
TimerEngine.start t_14_12 t_14_12
  (TimerEngine.pause t_14_10
     (TimerEngine.start t_14_00 t_14_00 (TimerEngine.setTask task taskFile loaded))).

(** The running plugin with the break set to start by itself. *)
Definition running_autoStartBreak : TimerEngine.GentlePomoPlugin :=
TimerEngine.start t_14_00 t_14_00
  (TimerEngine.init (TimerEngine.mkSettings 25 5 true false logFolder) Vault.empty).

End Scenario.

(** ** Sequences of recorder calls *)

Module Calls.

Import LogManager.

(** A pause and the resume that follows it, as the instants of the two clock
    reads. *)
Definition interval (pr : Moment.t * Moment.t) : Pause :=
mkPause (fst pr) (snd pr).

(** [pauseSession] at the first instant, then the [startSession] that
    resumes at the second one. *)
Definition pause_resume (m : PomoMode) (name : string) (minutes : Z)
    (path : option string) (lm : LogManager.t) (pr : Moment.t * Moment.t)
  : LogManager.t :=
startSession (snd pr) m name minutes path (pauseSession (fst pr) lm).

Definition cycles (m : PomoMode) (name : string) (minutes : Z)
    (path : option string) (prs : list (Moment.t * Moment.t)) (lm : LogManager.t)
  : LogManager.t :=
fold_left (pause_resume m name minutes path) prs lm.

(** A call of a method of the recorder other than [endSession], with its
    clock read. *)
Inductive NonEnding : Type :=
| CallStartSession (now : Moment.t) (m : PomoMode) (name : string) (minutes : Z)
    (path : option string)
| CallPauseSession (now : Moment.t)
| CallResumeSession (now : Moment.t)
| CallUpdateTask (name : string) (path : option string).

Definition call (lm : LogManager.t) (c : NonEnding) : LogManager.t :=
match c with
| CallStartSession now m name minutes path => startSession now m name minutes path lm
| CallPauseSession now => pauseSession now lm
| CallResumeSession now => resumeSession now lm
| CallUpdateTask name path => updateTask name path lm
end.

Definition calls (cs : list NonEnding) (lm : LogManager.t) : LogManager.t :=
fold_left call cs lm.

(** The record [s] with the task fields that [updateTask] stores. *)
Definition with_task (name : string) (path : option string) (s : SessionLog)
  : SessionLog :=
mkSession (mode s) (JS.or_default name "No Task") path (scheduledDurationMinutes s)
  (startTime s) (endTime s) (pauses s) (status s).

(** The pauses lie between [lo] and [hi], each one ends no earlier than it
    starts, and each one starts no earlier than the one before it ends. *)
Fixpoint chronological (lo : Moment.t) (ps : list Pause) (hi : Moment.t) : Prop :=
match ps with
| [] => lo <= hi
| p :: rest =>
    lo <= pause_start p /\ pause_start p <= pause_end p /\
    chronological (pause_end p) rest hi
end.

(** The states of the recorder that calls of its methods reach from the
    initial one when the clock never runs backwards; the instant is a bound
    on the clock reads made so far.  [endSession] is awaited. *)
Inductive reached : Moment.t -> LogManager.t -> Prop :=
| reached_initial (t : Moment.t) : reached t LogManager.initial
| reached_later (t t' : Moment.t) (lm : LogManager.t) :
    reached t lm -> t <= t' -> reached t' lm
| reached_startSession (t : Moment.t) (lm : LogManager.t) (m : PomoMode)
    (name : string) (minutes : Z) (path : option string) :
    reached t lm -> reached t (startSession t m name minutes path lm)
| reached_pauseSession (t : Moment.t) (lm : LogManager.t) :
    reached t lm -> reached t (pauseSession t lm)
| reached_updateTask (t : Moment.t) (lm : LogManager.t) (name : string)
    (path : option string) :
    reached t lm -> reached t (updateTask name path lm)
| reached_endSession (normalizePath : string -> string) (tz : Moment.t -> Z)
    (folder : string) (v : Vault.t) (t tEnd : Moment.t) (lm : LogManager.t)
    (st : Status) :
    reached t lm -> t <= tEnd ->
    reached tEnd (fst (endSession normalizePath tz folder t tEnd st lm v)).

(** What holds of every such state. *)
Definition well_formed (t : Moment.t) (lm : LogManager.t) : Prop :=
(currentSession lm = None -> currentPauseStart lm = None) /\
forall s, currentSession lm = Some s ->
  endTime s = None /\
  status s = cancelled /\
  match currentPauseStart lm with
  | Some p => chronological (startTime s) (pauses s) p /\ p <= t
  | None => chronological (startTime s) (pauses s) t
  end.

End Calls.

(** ** main.ts: the handlers of GentlePomoView *)

Module GentlePomoView.

Import LogManager TimerEngine.

Definition set_settings (cfg : GentlePomoSettings) (w : GentlePomoPlugin)
  : GentlePomoPlugin :=
mkPlugin cfg (state w) (intervalActive w) (targetTime w) (currentTaskName w)
  (currentTaskPath w) (emitted w) (logManager w) (vault w).

(** The click handler of the minus button, with its safety check. *)
Definition minusClick (w : GentlePomoPlugin) : GentlePomoPlugin :=
if (remainingMs (state w) >? 5 * 60 * 1000)%Z then addMinutes (-5) w else w.

(** The click handler of the plus button. *)
Definition plusClick (w : GentlePomoPlugin) : GentlePomoPlugin :=
addMinutes 5 w.

(** [focusInput.onchange]; [val] is the result of [parseInt], [None] for
    NaN. *)
Definition focusInputChange (val : option Z) (w : GentlePomoPlugin)
  : GentlePomoPlugin :=
match val with
| Some n =>
    if (n >? 0)%Z then
      let cfg := settings w in
      updateDuration focus n
        (set_settings
           (mkSettings n (breakMinutes cfg) (autoStartBreak cfg) (autoStartFocus cfg)
              (logFolderPath cfg)) w)
    else w
| None => w
end.

(** [breakInput.onchange]. *)
Definition breakInputChange (val : option Z) (w : GentlePomoPlugin)
  : GentlePomoPlugin :=
match val with
| Some n =>
    if (n >? 0)%Z then
      let cfg := settings w in
      updateDuration break n
        (set_settings
           (mkSettings (focusMinutes cfg) n (autoStartBreak cfg) (autoStartFocus cfg)
              (logFolderPath cfg)) w)
    else w
| None => w
end.

(** *** The timer listener: what the labels show for a snapshot *)

(** [s.padStart (2, "0")]. *)
Definition padStart2 (s : string) : string :=
Moment.zeros (2 - String.length s) +:+ s.

(** [Math.ceil (absMs / 1000)] for an integral [absMs]. *)
Definition ceilSeconds (absMs : Z) : Z := - ((- absMs) / 1000).

Definition isOvertime (st : TimerState) : bool := (remainingMs st <? 0)%Z.

(** Whether the listener disables the minus button. *)
Definition minusDisabled (st : TimerState) : bool :=
(remainingMs st <=? 5 * 60 * 1000)%Z.

(** The text of the time label. *)
Definition timeText (st : TimerState) : string :=
let absMs := Z.abs (remainingMs st) in
let totalSec := ceilSeconds absMs in
let m := totalSec / 60 in
let s := Z.rem totalSec 60 in
let text := padStart2 (JS.of_number m) +:+ ":" +:+ padStart2 (JS.of_number s) in
if isOvertime st then "+" +:+ text else text.

(** The text of the total-time label, shown in overtime only. *)
Definition totalTimeText (st : TimerState) : string :=
if isOvertime st then
  let absMs := Z.abs (remainingMs st) in
  let actualTotalMs := totalMs st + absMs in
  let tSec := actualTotalMs / 1000 in
  let tM := tSec / 60 in
  let tS := Z.rem tSec 60 in
  "Total: " +:+ JS.of_number tM +:+ ":" +:+ padStart2 (JS.of_number tS)
else "".

Definition modeText (st : TimerState) : string :=
match mode st with
| focus => "Focus"
| break => "Rest"
end.

End GentlePomoView.

(** ** Runs of the plugin

    The calls the view and the interval timer make on the engine, each with
    the clock reads it performs, one handler running to completion (the write
    of the log included) before the next. *)

Module Run.

Import LogManager TimerEngine.

Inductive Event : Type :=
| Start (tLog : Moment.t) (tNow : Z)
| Pause (tLog : Moment.t)
| Tick (now : Z)
| Finish (tPause tEnd tLog : Moment.t) (tNow : Z)
| Skip (tPause tEnd : Moment.t)
| Reset (tPause tEnd : Moment.t)
| AddMinutes (delta : Z)
| SetTask (name : string) (path : option string)
| FocusInput (val : option Z)
| BreakInput (val : option Z).

Section Host.

Variable normalizePath : string -> string.
Variable utcOffset : Moment.t -> Z.

Definition step (w : GentlePomoPlugin) (e : Event) : GentlePomoPlugin :=
match e with
| Start tLog tNow => start tLog tNow w
| Pause tLog => pause tLog w
| Tick now => tick now w
| Finish tPause tEnd tLog tNow => finish normalizePath utcOffset tPause tEnd tLog tNow w
| Skip tPause tEnd => skip normalizePath utcOffset tPause tEnd w
| Reset tPause tEnd => reset normalizePath utcOffset tPause tEnd w
| AddMinutes delta => addMinutes delta w
| SetTask name path => setTask name path w
| FocusInput val => GentlePomoView.focusInputChange val w
| BreakInput val => GentlePomoView.breakInputChange val w
end.

Definition run (events : list Event) (w : GentlePomoPlugin) : GentlePomoPlugin :=
fold_left step events w.

End Host.

(** The plugin [w] after [switchMode (m, autoStart)], with [lm] for its
    recorder and [v] for its vault. *)
Definition switched (m : PomoMode) (autoStart : option (Moment.t * Z))
    (lm : LogManager.t) (v : Vault.t) (w : GentlePomoPlugin) : GentlePomoPlugin :=
let total := minutesFor m (settings w) * 60 * 1000 in
let st := mkState m (bool_decide (is_Some autoStart)) total total in
mkPlugin (settings w) st (bool_decide (is_Some autoStart))
  match autoStart with
  | Some (_, tNow) => Some (tNow + total)
  | None => None
  end
  (currentTaskName w) (currentTaskPath w) (emitted w ++ [st]) lm v.

(** The auto-start setting that applies when the mode [m] is left. *)
Definition autoStartNext (m : PomoMode) (cfg : GentlePomoSettings) : bool :=
match m with
| focus => autoStartBreak cfg
| break => autoStartFocus cfg
end.

(** The vault [v'] holds everything [v] holds: every folder, and every file
    with its old content at the front. *)
Definition extends (v v' : Vault.t) : Prop :=
Vault.folders v ⊆ Vault.folders v' /\
forall path old, Vault.files v !! path = Some old ->
  exists added, Vault.files v' !! path = Some (old +:+ added).

(** What every state of a run satisfies. *)
Definition consistent (w : GentlePomoPlugin) : Prop :=
let lm := logManager w in
(isRunning (state w) = true <-> targetTime w <> None) /\
intervalActive w = isRunning (state w) /\
(isRunning (state w) = true -> currentPauseStart lm = None) /\
(currentSession lm = None -> currentPauseStart lm = None) /\
(forall s, currentSession lm = Some s ->
   LogManager.mode s = mode (state w) /\
   endTime s = None /\
   (isRunning (state w) = false -> currentPauseStart lm <> None)) /\
60000 <= totalMs (state w) /\
1 <= focusMinutes (settings w) /\
1 <= breakMinutes (settings w).

(** A Pause click and the Start click that resumes, with their clock reads:
    the pause, the resume as the recorder reads it, and the resume as the
    engine reads it. *)
Definition pause_and_resume (c : Moment.t * Moment.t * Z) : list Event :=
[Pause (fst (fst c)); Start (snd (fst c)) (snd c)].

Definition cycle_events (cs : list (Moment.t * Moment.t * Z)) : list Event :=
flat_map pause_and_resume cs.

(** Firings of the interval callback at the given clock reads. *)
Definition ticks (nows : list Z) (w : GentlePomoPlugin) : GentlePomoPlugin :=
fold_left (fun x now => tick now x) nows w.

(** The events that only move the countdown. *)
Definition countdown_only (e : Event) : bool :=
match e with
| Tick _ => true
| AddMinutes _ => true
| _ => false
end.

(** The part of the plugin that decides what is logged. *)
Definition log_view (w : GentlePomoPlugin)
  : GentlePomoSettings * PomoMode * bool * string * option string * LogManager.t * Vault.t :=
(settings w, mode (state w), isRunning (state w), currentTaskName w,
 currentTaskPath w, logManager w, vault w).

End Run.

(** ** Runs of the engine of src/unnamed/part_000

    The methods of that revision whose bodies are those of src/main.ts
    ([pause], the interval callback, [addMinutes] and [updateDuration] word
    for word, [start] apart from the sound it plays), and its own [reset].
    The [finish], [skip], [cancel] and [setTask] of that revision are not part
    of these runs. *)

Module RevisedRun.

Import LogManager TimerEngine.

Inductive Event : Type :=
| Start (tLog : Moment.t) (tNow : Z)
| Pause (tLog : Moment.t)
| Tick (now : Z)
| AddMinutes (delta : Z)
| UpdateDuration (m : PomoMode) (minutes : Z)
| Reset (tNow : Z).

Definition step (w : GentlePomoPlugin) (e : Event) : GentlePomoPlugin :=
match e with
| Start tLog tNow => start tLog tNow w
| Pause tLog => pause tLog w
| Tick now => tick now w
| AddMinutes delta => addMinutes delta w
| UpdateDuration m minutes => updateDuration m minutes w
| Reset tNow => Revised.reset tNow w
end.

Definition run (events : list Event) (w : GentlePomoPlugin) : GentlePomoPlugin :=
fold_left step events w.

End RevisedRun.

(** ** Concrete runs *)

Module Days.

Import Scenario.

(** A focus session with a pause, a few ticks and an extension, then a rest
    that is skipped. *)
Definition afternoon : list Run.Event :=
[ Run.SetTask task taskFile;
  Run.Start t_14_00 t_14_00;
  Run.Tick (t_14_00 + 50);
  Run.Tick t_14_10;
  Run.Pause t_14_10;
  Run.Start t_14_12 t_14_12;
  Run.AddMinutes 5;
  Run.Tick t_14_25;
  Run.Finish t_14_25 t_14_25 t_14_25 t_14_25;
  Run.Skip t_14_25 t_14_25 ].

(** One cycle: paused at 14:10, resumed at 14:12. *)
Definition one_cycle : list (Moment.t * Moment.t * Z) :=
[(t_14_10, t_14_12, t_14_12)].

(** In the revised engine: a reset in the middle of a focus session that is
    paused and resumed. *)
Definition revised_afternoon : list RevisedRun.Event :=
[ RevisedRun.Tick t_14_10;
  RevisedRun.Pause t_14_10;
  RevisedRun.Reset t_14_11;
  RevisedRun.Start t_14_12 t_14_12;
  RevisedRun.Tick t_14_25 ].

(** The same without the ticks and the extension. *)
Definition afternoon_bare : list Run.Event :=
[ Run.SetTask task taskFile;
  Run.Start t_14_00 t_14_00;
  Run.Pause t_14_10;
  Run.Start t_14_12 t_14_12;
  Run.Finish t_14_25 t_14_25 t_14_25 t_14_25;
  Run.Skip t_14_25 t_14_25 ].

End Days.
(** * Properties *)

Import LogManager.

(** ** Auxiliary facts on strings *)

Lemma string_length_app (a b : string) :
  String.length (a +:+ b) = (String.length a + String.length b)%nat.
Proof.
  induction a as [|c a IH]; simpl; [reflexivity|].
  change (String c a +:+ b) with (String c (a +:+ b)). simpl. now rewrite IH.
Qed.

Lemma string_app_assoc (a b c : string) : (a +:+ b) +:+ c = a +:+ (b +:+ c).
Proof.
  induction a as [|x a IH]; [reflexivity|].
  change ((String x a +:+ b) +:+ c) with (String x ((a +:+ b) +:+ c)).
  now rewrite IH.
Qed.

Lemma eqb_string_false (a b : string) : a <> b -> String.eqb a b = false.
Proof. intros H. now apply String.eqb_neq. Qed.

Lemma wikilink_longer (path name : string) : wikilink path name <> name.
Proof.
  intros H. apply (f_equal String.length) in H. unfold wikilink in H.
  rewrite !string_length_app in H. simpl in H. lia.
Qed.

(** ** The accumulation of paused time *)

Lemma fold_pauses_shift (ps : list Pause) (acc : Z) :
  fold_left (fun a p => a + Moment.diff (pause_end p) (pause_start p)) ps acc =
  acc + SpecWords.sum_pauses ps.
Proof.
  revert acc. induction ps as [|p ps IH]; intros acc; simpl.
  - lia.
  - rewrite IH. unfold Moment.diff. lia.
Qed.

Lemma totalPauseMs_sum (ps : list Pause) :
  totalPauseMs ps = SpecWords.sum_pauses ps.
Proof. unfold totalPauseMs. now rewrite fold_pauses_shift. Qed.

Lemma totalSeconds_spec (s : SessionLog) (e : Moment.t) :
  totalSeconds s e = SpecWords.Total s e.
Proof.
  unfold totalSeconds, totalDurationMs, SpecWords.Total, Moment.diff.
  now rewrite totalPauseMs_sum.
Qed.

(** ** JSON.stringify on the pause strings

    A timestamp is made of digits, dashes, colons and spaces, none of which
    JSON escapes, so each pause string is quoted as it is. *)













(** ** The model of moment on known dates *)

Example moment_epoch : Moment.format_datetime Moment.UTC 0 = "1970-01-01 00:00:00".
Proof. reflexivity. Qed.

Example moment_2025 :
  Moment.format_datetime Moment.UTC (Moment.utc 2025 12 21 14 10 0) = "2025-12-21 14:10:00".
Proof. reflexivity. Qed.

Example moment_leap :
  Moment.format_datetime Moment.UTC (Moment.utc 2024 2 29 23 59 59 + 999) = "2024-02-29 23:59:59".
Proof. reflexivity. Qed.

Example moment_before_epoch :
  Moment.format_datetime Moment.UTC (-1) = "1969-12-31 23:59:59".
Proof. reflexivity. Qed.

Example moment_utc_value : Moment.utc 2025 12 21 14 0 0 = 1766325600000.
Proof. reflexivity. Qed.

Example json_two :
  JS.stringify ["a"; "b"] =
  "[" +:+ JS.dquote +:+ "a" +:+ JS.dquote +:+ "," +:+ JS.dquote +:+ "b" +:+ JS.dquote +:+ "]".
Proof. reflexivity. Qed.

(** ** The recorder *)

(** C1. For every finalized focus record, the Total field of the log line is
    floor (((endTime - startTime) - sum over the closed pause intervals of
    (pauseEnd - pauseStart)) / 1000), whatever the number of pauses: the
    accumulation the code performs while mapping over the pauses is that sum,
    and the line carries its quotient by 1000 between the Pauses and the
    Status fields. *)
Theorem total_field_is_net_elapsed_seconds
    (tz : Moment.t -> Z) (s : SessionLog) (e : Moment.t) :
  endTime s = Some e ->
  LogManager.mode s = focus ->
  totalSeconds s e = SpecWords.Total s e /\
  line tz s e =
    "- 🍅 Focus | Task:: " +:+ taskStr s +:+
    " | Start:: " +:+ Moment.format_datetime tz (startTime s) +:+
    " | End:: " +:+ Moment.format_datetime tz e +:+
    " | Scheduled:: " +:+ JS.of_number (scheduledSeconds s) +:+
    " | Pauses:: " +:+ JS.stringify (pauseStrings tz s) +:+
    " | Total:: " +:+
      JS.of_number (((e - startTime s) - SpecWords.sum_pauses (pauses s)) / 1000) +:+
    " | Status:: " +:+ status_text (status s).
Proof.
  intros _ Hmode. split; [apply totalSeconds_spec|].
  unfold line. rewrite Hmode, totalSeconds_spec. reflexivity.
Qed.

Lemma total_field_scenario :
  totalSeconds Scenario.record Scenario.t_14_25 = 1380 /\
  JS.of_number (SpecWords.Total Scenario.record Scenario.t_14_25) = "1380".
Proof.
  destruct (total_field_is_net_elapsed_seconds Moment.UTC Scenario.record
              Scenario.t_14_25 eq_refl eq_refl) as [H _].
  rewrite H. split; reflexivity.
Defined.

Lemma startSession_active (now : Moment.t) (m : PomoMode) (name : string)
    (minutes : Z) (path : option string) (lm : LogManager.t) :
  exists s, currentSession (startSession now m name minutes path lm) = Some s.
Proof.
  unfold startSession, resumeSession.
  destruct (currentSession lm) as [s|] eqn:Hs; simpl.
  - destruct (currentPauseStart lm); simpl; eauto.
  - eauto.
Qed.

Lemma startSession_on_active (now : Moment.t) (m : PomoMode) (name : string)
    (minutes : Z) (path : option string) (lm : LogManager.t) (s : SessionLog) :
  currentSession lm = Some s ->
  startSession now m name minutes path lm =
  match currentPauseStart lm with
  | Some pauseStart => mkLog (Some (push_pause (mkPause pauseStart now) s)) None
  | None => lm
  end.
Proof.
  intros Hs. unfold startSession, resumeSession. rewrite Hs.
  destruct (currentPauseStart lm); reflexivity.
Qed.

Lemma call_keeps_record (c : Calls.NonEnding) (lm : LogManager.t) (s : SessionLog) :
  currentSession lm = Some s ->
  exists s',
    currentSession (Calls.call lm c) = Some s' /\
    startTime s' = startTime s /\
    LogManager.mode s' = LogManager.mode s /\
    scheduledDurationMinutes s' = scheduledDurationMinutes s.
Proof.
  intros Hs.
  destruct c as [now m name minutes path | now | now | name path]; simpl.
  - rewrite (startSession_on_active now m name minutes path lm s Hs).
    destruct (currentPauseStart lm); simpl; eauto 6.
  - unfold pauseSession. rewrite Hs. simpl. eauto 6.
  - unfold resumeSession. rewrite Hs.
    destruct (currentPauseStart lm); simpl; eauto 6.
  - unfold updateTask. rewrite Hs. simpl. eauto 6.
Qed.

Lemma calls_keep_record (cs : list Calls.NonEnding) (lm : LogManager.t) (s : SessionLog) :
  currentSession lm = Some s ->
  exists s',
    currentSession (Calls.calls cs lm) = Some s' /\
    startTime s' = startTime s /\
    LogManager.mode s' = LogManager.mode s /\
    scheduledDurationMinutes s' = scheduledDurationMinutes s.
Proof.
  revert lm s. induction cs as [|c cs IH]; intros lm s Hs.
  - exists s. repeat split. exact Hs.
  - destruct (call_keeps_record c lm s Hs) as (s1 & Hs1 & Ht & Hm & Hd).
    destruct (IH (Calls.call lm c) s1 Hs1) as (s' & Hs' & Ht' & Hm' & Hd').
    exists s'. split; [exact Hs'|]. repeat split; congruence.
Qed.

(** C3. Whatever the state of the recorder, after a call of startSession a
    record is active, and it is still the one record after any calls other
    than endSession (pauseSession, resumeSession, updateTask, further
    startSession calls) and a second call of startSession: no second record
    is created, and startTime, mode and scheduledDurationMinutes are those of
    the first call's record whatever the arguments of the second call.  The
    second call acts as a resume: it changes nothing of the record but its
    pauses (task, endTime and status are kept), it appends the interval from
    the pending pause start to now when a pause is open, changes nothing when
    none is, and leaves no pause pending; in particular after a pauseSession
    at [tp] it yields exactly the record with the interval from [tp] to now
    appended. *)
Theorem startSession_twice_resumes
    (lm : LogManager.t)
    (t1 : Moment.t) (m1 : PomoMode) (name1 : string) (min1 : Z) (path1 : option string)
    (between : list Calls.NonEnding)
    (t2 : Moment.t) (m2 : PomoMode) (name2 : string) (min2 : Z) (path2 : option string) :
  let lm1 := startSession t1 m1 name1 min1 path1 lm in
  let lmk := Calls.calls between lm1 in
  let lm2 := startSession t2 m2 name2 min2 path2 lmk in
  exists s1 sk s2,
    currentSession lm1 = Some s1 /\
    currentSession lmk = Some sk /\
    currentSession lm2 = Some s2 /\
    startTime sk = startTime s1 /\
    LogManager.mode sk = LogManager.mode s1 /\
    scheduledDurationMinutes sk = scheduledDurationMinutes s1 /\
    startTime s2 = startTime s1 /\
    LogManager.mode s2 = LogManager.mode s1 /\
    scheduledDurationMinutes s2 = scheduledDurationMinutes s1 /\
    taskName s2 = taskName sk /\
    taskPath s2 = taskPath sk /\
    endTime s2 = endTime sk /\
    status s2 = status sk /\
    pauses s2 =
      match currentPauseStart lmk with
      | Some pauseStart => (pauses sk ++ [mkPause pauseStart t2])%list
      | None => pauses sk
      end /\
    lm2 =
      match currentPauseStart lmk with
      | Some pauseStart => mkLog (Some (push_pause (mkPause pauseStart t2) sk)) None
      | None => lmk
      end /\
    currentPauseStart lm2 = None /\
    (forall tp,
       startSession t2 m2 name2 min2 path2 (pauseSession tp lmk) =
       mkLog (Some (push_pause (mkPause tp t2) sk)) None).
Proof.
  intros lm1 lmk lm2.
  destruct (startSession_active t1 m1 name1 min1 path1 lm) as [s1 Hs1].
  fold lm1 in Hs1.
  destruct (calls_keep_record between lm1 s1 Hs1) as (sk & Hsk & Ht & Hm & Hd).
  fold lmk in Hsk.
  assert (Hlm2 : lm2 =
                 match currentPauseStart lmk with
                 | Some pauseStart =>
                     mkLog (Some (push_pause (mkPause pauseStart t2) sk)) None
                 | None => lmk
                 end)
    by exact (startSession_on_active t2 m2 name2 min2 path2 lmk sk Hsk).
  assert (Hpaused : forall tp,
            startSession t2 m2 name2 min2 path2 (pauseSession tp lmk) =
            mkLog (Some (push_pause (mkPause tp t2) sk)) None).
  { intros tp. unfold pauseSession. rewrite Hsk. reflexivity. }
  exists s1, sk.
  destruct (currentPauseStart lmk) as [p|] eqn:Hp.
  - exists (push_pause (mkPause p t2) sk). rewrite Hlm2. simpl.
    repeat split; try assumption; reflexivity.
  - exists sk. rewrite Hlm2, Hsk, Hp.
    repeat split; try assumption; reflexivity.
Qed.

Lemma startSession_twice_scenario :
  exists s2,
    currentSession Scenario.resumed = Some s2 /\
    startTime s2 = Scenario.t_14_00 /\
    pauses s2 = [mkPause Scenario.t_14_10 Scenario.t_14_12].
Proof.
  destruct (startSession_twice_resumes LogManager.initial
              Scenario.t_14_00 focus Scenario.task 25 Scenario.taskFile
              [Calls.CallPauseSession Scenario.t_14_10]
              Scenario.t_14_12 focus Scenario.task 25 Scenario.taskFile)
    as (s1 & sk & s2 & H1 & Hk & H2 & _ & _ & _ & Ht & _ & _ & _ & _ & _ & _ & Hp & _).
  exists s2. split; [exact H2|].
  injection H1 as <-. injection Hk as <-.
  split; [exact Ht|exact Hp].
Defined.

(** C9. On an active session, a second pauseSession with no resume and no
    endSession in between overwrites the pending pause start: the record is as
    it was (no interval is appended for the first pause), the recorder is in
    the state a single pauseSession at the later instant gives, and the
    interval that the next resume, or the end of the session, records starts
    at the later instant. *)
Theorem pauseSession_twice_overwrites
    (lm : LogManager.t) (s : SessionLog) (t1 t2 t3 tEnd : Moment.t)
    (m : PomoMode) (name : string) (minutes : Z) (path : option string)
    (st : Status) :
  currentSession lm = Some s ->
  let lm2 := pauseSession t2 (pauseSession t1 lm) in
  lm2 = pauseSession t2 lm /\
  currentSession (pauseSession t1 lm) = Some s /\
  currentSession lm2 = Some s /\
  currentPauseStart lm2 = Some t2 /\
  currentSession (startSession t3 m name minutes path lm2) =
    Some (push_pause (mkPause t2 t3) s) /\
  currentSession (endSession_sync t3 tEnd st lm2) =
    Some (set_end tEnd st (push_pause (mkPause t2 t3) s)).
Proof.
  intros Hs lm2. unfold lm2, pauseSession. rewrite Hs. simpl.
  repeat split; reflexivity.
Qed.

Lemma pauseSession_twice_scenario :
  currentSession
    (startSession Scenario.t_14_12 focus Scenario.task 25 Scenario.taskFile
       (pauseSession Scenario.t_14_11 (pauseSession Scenario.t_14_10 Scenario.started))) =
  Some (mkSession focus Scenario.task Scenario.taskFile 25 Scenario.t_14_00 None
          [mkPause Scenario.t_14_11 Scenario.t_14_12] cancelled).
Proof.
  exact (proj1 (proj2 (proj2 (proj2 (proj2
    (pauseSession_twice_overwrites Scenario.started
       (mkSession focus Scenario.task Scenario.taskFile 25 Scenario.t_14_00 None []
          cancelled)
       Scenario.t_14_10 Scenario.t_14_11 Scenario.t_14_12 Scenario.t_14_25
       focus Scenario.task 25 Scenario.taskFile finished eq_refl)))))).
Defined.

(** C10. In the line of a finalized focus record the Task field is the
    wikilink token [[taskPath|taskName]] exactly when taskPath is set
    (present and not the empty string) and taskName is not No Task;
    otherwise it is the text of taskName, which is the literal No Task when
    no task is linked.  startSession, when it opens a record, and updateTask
    store No Task in place of an empty task name. *)
Theorem task_field_is_wikilink_iff_linked
    (tz : Moment.t -> Z) (s : SessionLog) (e : Moment.t) :
  endTime s = Some e ->
  LogManager.mode s = focus ->
  (* the Task field of the line *)
  line tz s e =
    "- 🍅 Focus | Task:: " +:+ taskStr s +:+
    " | Start:: " +:+ Moment.format_datetime tz (startTime s) +:+
    " | End:: " +:+ Moment.format_datetime tz e +:+
    " | Scheduled:: " +:+ JS.of_number (scheduledSeconds s) +:+
    " | Pauses:: " +:+ JS.stringify (pauseStrings tz s) +:+
    " | Total:: " +:+ JS.of_number (totalSeconds s e) +:+
    " | Status:: " +:+ status_text (status s) /\
  (* the wikilink, if and only if *)
  (forall p, taskPath s = Some p -> p <> "" -> taskName s <> "No Task" ->
     taskStr s = "[[" +:+ p +:+ "|" +:+ taskName s +:+ "]]") /\
  ((exists p, taskStr s = wikilink p (taskName s)) <->
     SpecWords.path_set (taskPath s) /\ taskName s <> "No Task") /\
  (* otherwise the plain name *)
  (~ (SpecWords.path_set (taskPath s) /\ taskName s <> "No Task") ->
     taskStr s = taskName s) /\
  (taskName s = "No Task" -> taskStr s = "No Task") /\
  (* the coercion of an empty name *)
  (forall now m minutes path lm,
     currentSession lm = None ->
     option_map taskName (currentSession (startSession now m "" minutes path lm)) =
       Some "No Task") /\
  (forall path lm s0,
     currentSession lm = Some s0 ->
     option_map taskName (currentSession (updateTask "" path lm)) = Some "No Task").
Proof.
  intros _ Hmode.
  assert (Hlink : forall p, taskPath s = Some p -> p <> "" -> taskName s <> "No Task" ->
            taskStr s = wikilink p (taskName s)).
  { intros p Hp Hne Hname. unfold taskStr. rewrite Hp. simpl.
    rewrite (eqb_string_false _ _ Hne), (eqb_string_false _ _ Hname). reflexivity. }
  assert (Hplain : ~ (SpecWords.path_set (taskPath s) /\ taskName s <> "No Task") ->
            taskStr s = taskName s).
  { intros Hnot. unfold taskStr.
    destruct (String.eqb_spec (taskName s) "No Task") as [Hn|Hn].
    - rewrite andb_false_r. symmetry. exact Hn.
    - destruct (taskPath s) as [p|] eqn:Hp; simpl; [|reflexivity].
      destruct (String.eqb_spec p "") as [Hp0|Hp0]; simpl; [reflexivity|].
      exfalso. apply Hnot. split; [|exact Hn]. exists p. split; [reflexivity|exact Hp0]. }
  split; [unfold line; now rewrite Hmode|].
  split; [exact Hlink|].
  split.
  { split.
    - intros [p Hp].
      destruct (String.eqb_spec (taskName s) "No Task") as [Hn|Hn].
      + exfalso. unfold taskStr in Hp. rewrite Hn in Hp. rewrite andb_false_r in Hp.
        simpl in Hp. symmetry in Hp. exact (wikilink_longer _ _ Hp).
      + split; [|exact Hn].
        destruct (taskPath s) as [q|] eqn:Hq.
        * destruct (String.eqb_spec q "") as [Hq0|Hq0].
          -- exfalso. unfold taskStr in Hp. rewrite Hq, Hq0 in Hp. simpl in Hp.
             rewrite (eqb_string_false _ _ Hn) in Hp. symmetry in Hp.
             exact (wikilink_longer _ _ Hp).
          -- exists q. split; [reflexivity|exact Hq0].
        * exfalso. unfold taskStr in Hp. rewrite Hq in Hp. simpl in Hp.
          rewrite (eqb_string_false _ _ Hn) in Hp. symmetry in Hp.
          exact (wikilink_longer _ _ Hp).
    - intros [[p [Hp Hp0]] Hn]. exists p. now apply Hlink. }
  split; [exact Hplain|].
  split.
  { intros Hn. unfold taskStr. rewrite Hn, andb_false_r. reflexivity. }
  split.
  - intros now m minutes path lm Hnone. unfold startSession. rewrite Hnone. reflexivity.
  - intros path lm s0 Hs0. unfold updateTask. rewrite Hs0. reflexivity.
Qed.

Lemma task_field_scenario :
  taskStr Scenario.record = "[[Path/To/File.md|Task Name #tag]]" /\
  taskStr Scenario.midnight_record = "No Task".
Proof.
  split.
  - apply (proj1 (proj2 (task_field_is_wikilink_iff_linked Moment.UTC Scenario.record
             Scenario.t_14_25 eq_refl eq_refl)) "Path/To/File.md" eq_refl);
      intros H; discriminate H.
  - apply (proj1 (proj2 (proj2 (proj2 (proj2
             (task_field_is_wikilink_iff_linked Moment.UTC Scenario.midnight_record
                Scenario.t_00_03 eq_refl eq_refl)))))).
    reflexivity.
Defined.

(** ** writeLog and the vault *)

Section WriteLog.

Variable normalizePath : string -> string.
Variable tz : Moment.t -> Z.

Lemma writeLog_disabled (s : SessionLog) (v : Vault.t) :
  writeLog normalizePath tz "" s v = Returned v.
Proof. reflexivity. Qed.

(** What one call of writeLog does to the vault when logging is enabled and
    the record has its endTime. *)
Lemma writeLog_enabled (folder : string) (s : SessionLog) (e : Moment.t) (v : Vault.t) :
  folder <> "" ->
  endTime s = Some e ->
  let path := filePath normalizePath tz folder s in
  let dirs :=
    if Vault.exists_ (normalizePath folder) v then Vault.folders v
    else {[normalizePath folder]} ∪ Vault.folders v in
  writeLog normalizePath tz folder s v =
  Returned
    (Vault.mk dirs
       match Vault.files v !! path with
       | Some old => <[path := old +:+ JS.nl +:+ line tz s e]> (Vault.files v)
       | None =>
           if bool_decide (path ∈ dirs) then Vault.files v
           else <[path := line tz s e]> (Vault.files v)
       end).
Proof.
  intros Hfolder He path dirs. unfold writeLog.
  rewrite (eqb_string_false _ _ Hfolder), He. fold path.
  set (v1 := if Vault.exists_ (normalizePath folder) v then v
             else Vault.createFolder (normalizePath folder) v).
  assert (Hfiles : Vault.files v1 = Vault.files v).
  { unfold v1. destruct (Vault.exists_ _ v); reflexivity. }
  assert (Hdirs : Vault.folders v1 = dirs).
  { unfold v1, dirs. destruct (Vault.exists_ _ v); reflexivity. }
  unfold Vault.exists_, Vault.isFile, Vault.append, Vault.create.
  rewrite Hfiles, Hdirs.
  destruct (Vault.files v !! path) as [old|] eqn:Hold.
  - rewrite (bool_decide_eq_true_2 (is_Some (Some old))) by eauto.
    rewrite orb_true_r. reflexivity.
  - rewrite (bool_decide_eq_false_2 (is_Some None)) by (intros [? ?]; discriminate).
    rewrite orb_false_r.
    destruct (bool_decide (path ∈ dirs)) eqn:Hin.
    + destruct v1 as [d f]. simpl in *. subst. reflexivity.
    + reflexivity.
Qed.

(** Only the file of the record's start date can change. *)
Lemma writeLog_other_files (folder : string) (s : SessionLog) (v : Vault.t) (q : string) :
  q <> filePath normalizePath tz folder s ->
  Vault.files (outcome_vault (writeLog normalizePath tz folder s v)) !! q =
  Vault.files v !! q.
Proof.
  intros Hq. unfold writeLog.
  destruct (String.eqb folder ""); [reflexivity|].
  set (v1 := if Vault.exists_ (normalizePath folder) v then v
             else Vault.createFolder (normalizePath folder) v).
  assert (Hfiles : Vault.files v1 = Vault.files v).
  { unfold v1. destruct (Vault.exists_ _ v); reflexivity. }
  destruct (endTime s) as [e|]; simpl; [|now rewrite Hfiles].
  destruct (Vault.exists_ _ v1).
  - destruct (Vault.isFile _ v1); simpl; [|now rewrite Hfiles].
    unfold Vault.append. destruct (Vault.files v1 !! _); simpl.
    + rewrite lookup_insert_ne by congruence. now rewrite Hfiles.
    + now rewrite Hfiles.
  - simpl. rewrite lookup_insert_ne by congruence. now rewrite Hfiles.
Qed.

Lemma writeLog_target_file (folder : string) (s : SessionLog) (e : Moment.t) (v : Vault.t) :
  folder <> "" ->
  endTime s = Some e ->
  let path := filePath normalizePath tz folder s in
  path ∉ Vault.folders v ->
  path <> normalizePath folder ->
  exists v',
    writeLog normalizePath tz folder s v = Returned v' /\
    Vault.files v' !! path =
      Some match Vault.files v !! path with
           | Some old => old +:+ JS.nl +:+ line tz s e
           | None => line tz s e
           end.
Proof.
  intros Hfolder He path Hnotdir Hneq.
  rewrite (writeLog_enabled folder s e v Hfolder He). fold path.
  eexists. split; [reflexivity|]. simpl.
  destruct (Vault.files v !! path) as [old|] eqn:Hold.
  - apply lookup_insert_eq.
  - rewrite bool_decide_eq_false_2.
    + apply lookup_insert_eq.
    + destruct (Vault.exists_ (normalizePath folder) v); [exact Hnotdir|].
      intros [Hin|Hin]%elem_of_union; [|exact (Hnotdir Hin)].
      apply elem_of_singleton in Hin. exact (Hneq Hin).
Qed.

End WriteLog.



Lemma rest_line_scenario :
  line Moment.UTC Scenario.rest_record (Moment.utc 2025 12 21 14 30 0) =
  "- ☕ Rest | Start:: 2025-12-21 14:25:00 | End:: 2025-12-21 14:30:00 | Scheduled:: 300 | Total:: 300".
Proof. vm_compute. reflexivity. Qed.

(** C6. The line of a finalized record goes to the file
    [<log-folder>/<YYYY-MM-DD>-gentle-pomodoro-log.md] (both the folder and
    the whole path passed through the host's normalizePath), where the date
    is the calendar date of startTime: the path does not depend on endTime,
    writeLog changes no other file, and it leaves the line in that one.  A
    session from 2025-12-21 23:58:00 to 2025-12-22 00:03:00 is logged to the
    file of 2025-12-21. *)
Theorem log_file_is_keyed_by_start_date
    (normalizePath : string -> string) (tz : Moment.t -> Z)
    (folder : string) (s : SessionLog) (e : Moment.t) (v : Vault.t) :
  folder <> "" ->
  endTime s = Some e ->
  let path :=
    normalizePath
      (normalizePath folder +:+ "/" +:+ Moment.format_date tz (startTime s) +:+
       "-gentle-pomodoro-log.md") in
  filePath normalizePath tz folder s = path /\
  (forall e' st, filePath normalizePath tz folder (set_end e' st s) = path) /\
  Moment.format_datetime tz (startTime s) =
    Moment.format_date tz (startTime s) +:+ " " +:+ Moment.format_clock tz (startTime s) /\
  exists v',
    writeLog normalizePath tz folder s v = Returned v' /\
    (forall q, q <> path -> Vault.files v' !! q = Vault.files v !! q) /\
    (path ∉ Vault.folders v -> path <> normalizePath folder ->
     Vault.files v' !! path =
       Some match Vault.files v !! path with
            | Some old => old +:+ JS.nl +:+ line tz s e
            | None => line tz s e
            end).
Proof.
  intros Hfolder He path.
  assert (Hpath : filePath normalizePath tz folder s = path) by reflexivity.
  split; [exact Hpath|]. split; [intros; reflexivity|]. split; [reflexivity|].
  pose proof (writeLog_enabled normalizePath tz folder s e v Hfolder He) as Hw.
  cbv zeta in Hw. eexists. split; [exact Hw|]. split.
  - intros q Hq.
    pose proof (writeLog_other_files normalizePath tz folder s v q) as Hother.
    rewrite Hpath, Hw in Hother. exact (Hother Hq).
  - intros Hdir Hneq.
    destruct (writeLog_target_file normalizePath tz folder s e v Hfolder He)
      as [v' [Hw' Hfile]].
    + rewrite Hpath. exact Hdir.
    + rewrite Hpath. exact Hneq.
    + rewrite Hw in Hw'. injection Hw' as <-. rewrite Hpath in Hfile. exact Hfile.
Qed.

Lemma midnight_rollover :
  exists v',
    writeLog Scenario.normalizePath Moment.UTC Scenario.logFolder
      Scenario.midnight_record Vault.empty = Returned v' /\
    Moment.format_datetime Moment.UTC (startTime Scenario.midnight_record) =
      "2025-12-21 23:58:00" /\
    Moment.format_datetime Moment.UTC Scenario.t_00_03 = "2025-12-22 00:03:00" /\
    Vault.files v' !! "Pomodoro_logs/2025-12-21-gentle-pomodoro-log.md" =
      Some "- 🍅 Focus | Task:: No Task | Start:: 2025-12-21 23:58:00 | End:: 2025-12-22 00:03:00 | Scheduled:: 1500 | Pauses:: [] | Total:: 300 | Status:: finished" /\
    Vault.files v' !! "Pomodoro_logs/2025-12-22-gentle-pomodoro-log.md" = None.
Proof.
  destruct (log_file_is_keyed_by_start_date Scenario.normalizePath Moment.UTC
              Scenario.logFolder Scenario.midnight_record Scenario.t_00_03 Vault.empty)
    as [_ [_ [_ [v' [Hw [Hother Hfile]]]]]].
  - intros H; discriminate H.
  - reflexivity.
  - exists v'. split; [exact Hw|].
    split; [vm_compute; reflexivity|]. split; [vm_compute; reflexivity|]. split.
    + etransitivity.
      * apply Hfile.
        -- simpl. apply not_elem_of_empty.
        -- intros H; vm_compute in H; discriminate H.
      * vm_compute. reflexivity.
    + etransitivity.
      * apply Hother. intros H; vm_compute in H; discriminate H.
      * reflexivity.
Defined.

(** ** endSession as a whole *)

Section EndSession.

Variable normalizePath : string -> string.
Variable tz : Moment.t -> Z.

Lemma writeLog_returns (folder : string) (s : SessionLog) (e : Moment.t) (v : Vault.t) :
  endTime s = Some e ->
  writeLog normalizePath tz folder s v =
  Returned (outcome_vault (writeLog normalizePath tz folder s v)).
Proof.
  intros He. destruct (String.eqb_spec folder "") as [->|Hne].
  - reflexivity.
  - rewrite (writeLog_enabled normalizePath tz folder s e v Hne He). reflexivity.
Qed.

Lemma endSession_sync_active (tPause tEnd : Moment.t) (st : Status)
    (lm : LogManager.t) (s : SessionLog) :
  currentSession lm = Some s ->
  endSession_sync tPause tEnd st lm =
  mkLog (Some (SpecWords.finalized (currentPauseStart lm) s tPause tEnd st)) None.
Proof.
  intros Hs. unfold endSession_sync, resumeSession, SpecWords.finalized.
  rewrite Hs. destruct (currentPauseStart lm) as [ps|] eqn:Hp; simpl.
  - reflexivity.
  - rewrite Hs, Hp. reflexivity.
Qed.

Lemma endSession_settle_finalized (folder : string) (s : SessionLog) (e : Moment.t)
    (pending : option Moment.t) (v : Vault.t) :
  endTime s = Some e ->
  endSession_settle normalizePath tz folder (mkLog (Some s) pending) v =
  (mkLog None None, Returned (outcome_vault (writeLog normalizePath tz folder s v))).
Proof.
  intros He. unfold endSession_settle. simpl.
  rewrite (writeLog_returns folder s e v He). reflexivity.
Qed.

Lemma endSession_active (folder : string) (tPause tEnd : Moment.t) (st : Status)
    (lm : LogManager.t) (s : SessionLog) (v : Vault.t) :
  currentSession lm = Some s ->
  endSession normalizePath tz folder tPause tEnd st lm v =
  (mkLog None None,
   Returned
     (outcome_vault
        (writeLog normalizePath tz folder
           (SpecWords.finalized (currentPauseStart lm) s tPause tEnd st) v))).
Proof.
  intros Hs. unfold endSession. rewrite Hs.
  rewrite (endSession_sync_active tPause tEnd st lm s Hs).
  apply (endSession_settle_finalized folder _ tEnd). reflexivity.
Qed.

Lemma endSession_idle (folder : string) (tPause tEnd : Moment.t) (st : Status)
    (lm : LogManager.t) (v : Vault.t) :
  currentSession lm = None ->
  endSession normalizePath tz folder tPause tEnd st lm v = (lm, Returned v).
Proof. intros Hs. unfold endSession. now rewrite Hs. Qed.

Lemma endSession_clears (folder : string) (tPause tEnd : Moment.t) (st : Status)
    (lm : LogManager.t) (v : Vault.t) :
  currentSession (fst (endSession normalizePath tz folder tPause tEnd st lm v)) = None.
Proof.
  destruct (currentSession lm) as [s|] eqn:Hs.
  - now rewrite (endSession_active folder tPause tEnd st lm s v Hs).
  - now rewrite (endSession_idle folder tPause tEnd st lm v Hs).
Qed.

(** An awaited endSession never ends in a rejection. *)
Lemma endSession_returns (folder : string) (tPause tEnd : Moment.t) (st : Status)
    (lm : LogManager.t) (v : Vault.t) :
  endSession normalizePath tz folder tPause tEnd st lm v =
  (fst (endSession normalizePath tz folder tPause tEnd st lm v),
   Returned (outcome_vault (snd (endSession normalizePath tz folder tPause tEnd st lm v)))).
Proof.
  destruct (currentSession lm) as [s|] eqn:Hs.
  - now rewrite (endSession_active folder tPause tEnd st lm s v Hs).
  - now rewrite (endSession_idle folder tPause tEnd st lm v Hs).
Qed.

(** A handler that ends the session and then switches to a mode without
    auto-start ends the session exactly as an awaited endSession does, and
    leaves the timer stopped at the full duration of that mode. *)
Lemma endSession_then_switch (st : Status) (tPause tEnd : Moment.t)
    (next : PomoMode -> PomoMode) (w : TimerEngine.GentlePomoPlugin) :
  let r := endSession normalizePath tz (TimerEngine.logFolderPath (TimerEngine.settings w))
             tPause tEnd st (TimerEngine.logManager w) (TimerEngine.vault w) in
  let m := next (TimerEngine.mode (TimerEngine.state w)) in
  let total := TimerEngine.minutesFor m (TimerEngine.settings w) * 60 * 1000 in
  TimerEngine.endSession_then normalizePath tz st tPause tEnd
    (fun w1 => TimerEngine.switchMode (next (TimerEngine.mode (TimerEngine.state w1))) None w1) w =
  TimerEngine.mkPlugin (TimerEngine.settings w) (TimerEngine.mkState m false total total) false None
    (TimerEngine.currentTaskName w) (TimerEngine.currentTaskPath w)
    (TimerEngine.emitted w ++ [TimerEngine.mkState m false total total])
    (fst r) (outcome_vault (snd r)).
Proof.
  intros r m total. unfold r, TimerEngine.endSession_then, endSession.
  destruct (currentSession (TimerEngine.logManager w)) as [s|] eqn:Hs.
  - unfold TimerEngine.settle, TimerEngine.switchMode. simpl.
    destruct (endSession_settle _ _ _ _ _) as [lm' o]. reflexivity.
  - unfold TimerEngine.switchMode. simpl. reflexivity.
Qed.

End EndSession.

(** ** The timer *)

Section Engine.

Variable normalizePath : string -> string.
Variable tz : Moment.t -> Z.


(** C7. start while the timer is running, pause while it is not running and
    endSession while no record is active each return the state they were
    given: the timer, the recorder and the vault are unchanged (so no line is
    written), no snapshot is emitted, and the call returns normally. *)
Theorem guarded_calls_are_noops
    (tLog : Moment.t) (tNow : Z) (tPause tEnd : Moment.t) (st : Status)
    (w : TimerEngine.GentlePomoPlugin) :
  (TimerEngine.isRunning (TimerEngine.state w) = true -> TimerEngine.start tLog tNow w = w) /\
  (TimerEngine.isRunning (TimerEngine.state w) = false -> TimerEngine.pause tLog w = w) /\
  (currentSession (TimerEngine.logManager w) = None ->
     endSession_sync tPause tEnd st (TimerEngine.logManager w) = TimerEngine.logManager w /\
     endSession normalizePath tz (TimerEngine.logFolderPath (TimerEngine.settings w)) tPause tEnd st
       (TimerEngine.logManager w) (TimerEngine.vault w) =
       (TimerEngine.logManager w, Returned (TimerEngine.vault w)) /\
     TimerEngine.endSession_then normalizePath tz st tPause tEnd (fun x => x) w = w).
Proof.
  repeat split.
  - intros H. unfold TimerEngine.start. now rewrite H.
  - intros H. unfold TimerEngine.pause. now rewrite H.
  - unfold endSession_sync. now rewrite H.
  - unfold endSession. now rewrite H.
  - unfold TimerEngine.endSession_then. now rewrite H.
Qed.

(** C8. For every state and every integer delta, addMinutes sets totalMs to
    max (totalMs + delta * 60000, 60000) and remainingMs to
    min (remainingMs + delta * 60000, the new totalMs); when the timer is
    running its wall-clock target moves by exactly the change of remainingMs
    after the clamp, and otherwise the target, like the mode, the running
    flag, the recorder and the vault, is left as it is. *)
Theorem addMinutes_clamps (delta : Z) (w : TimerEngine.GentlePomoPlugin) :
  let w' := TimerEngine.addMinutes delta w in
  let old := TimerEngine.state w in
  let new := TimerEngine.state w' in
  TimerEngine.totalMs new = Z.max (TimerEngine.totalMs old + delta * 60000) 60000 /\
  TimerEngine.remainingMs new =
    Z.min (TimerEngine.remainingMs old + delta * 60000) (TimerEngine.totalMs new) /\
  TimerEngine.targetTime w' =
    (if TimerEngine.isRunning old
     then option_map
            (fun target => target + (TimerEngine.remainingMs new - TimerEngine.remainingMs old))
            (TimerEngine.targetTime w)
     else TimerEngine.targetTime w) /\
  TimerEngine.mode new = TimerEngine.mode old /\
  TimerEngine.isRunning new = TimerEngine.isRunning old /\
  TimerEngine.logManager w' = TimerEngine.logManager w /\
  TimerEngine.vault w' = TimerEngine.vault w /\
  TimerEngine.emitted w' = (TimerEngine.emitted w ++ [new])%list.
Proof.
  intros w' old new. unfold new, w', old, TimerEngine.addMinutes. cbv zeta.
  set (total0 := TimerEngine.totalMs (TimerEngine.state w) + delta * 60 * 1000).
  set (rem0 := TimerEngine.remainingMs (TimerEngine.state w) + delta * 60 * 1000).
  set (newTotal := if (total0 <? 60 * 1000)%Z then 60 * 1000 else total0).
  set (newRemaining := if (rem0 >? newTotal)%Z then newTotal else rem0).
  assert (Htotal : newTotal = Z.max (TimerEngine.totalMs (TimerEngine.state w) + delta * 60000) 60000).
  { unfold newTotal, total0. destruct (Z.ltb_spec (TimerEngine.totalMs (TimerEngine.state w) + delta * 60 * 1000) (60 * 1000)); lia. }
  assert (Hrem : newRemaining =
            Z.min (TimerEngine.remainingMs (TimerEngine.state w) + delta * 60000) newTotal).
  { unfold newRemaining, rem0. rewrite Z.gtb_ltb.
    destruct (Z.ltb_spec newTotal (TimerEngine.remainingMs (TimerEngine.state w) + delta * 60 * 1000)); lia. }
  simpl.
  destruct (TimerEngine.targetTime w) as [target|] eqn:Ht;
    destruct (TimerEngine.isRunning (TimerEngine.state w)) eqn:Hr; simpl;
    rewrite ?Ht, ?Hr; repeat split; auto.
Qed.

End Engine.

Lemma guarded_calls_scenario :
  TimerEngine.start Scenario.t_14_10 Scenario.t_14_10 Scenario.running = Scenario.running /\
  TimerEngine.pause Scenario.t_14_12 Scenario.halted = Scenario.halted /\
  endSession Scenario.normalizePath Moment.UTC Scenario.logFolder
    Scenario.t_14_25 Scenario.t_14_25 finished LogManager.initial Vault.empty =
  (LogManager.initial, Returned Vault.empty).
Proof.
  split; [|split].
  - exact (proj1 (guarded_calls_are_noops Scenario.normalizePath Moment.UTC
                    Scenario.t_14_10 Scenario.t_14_10 Scenario.t_14_25 Scenario.t_14_25
                    finished Scenario.running) eq_refl).
  - exact (proj1 (proj2 (guarded_calls_are_noops Scenario.normalizePath Moment.UTC
                    Scenario.t_14_12 Scenario.t_14_12 Scenario.t_14_25 Scenario.t_14_25
                    finished Scenario.halted)) eq_refl).
  - exact (proj1 (proj2 (proj2 (proj2 (guarded_calls_are_noops Scenario.normalizePath
                    Moment.UTC Scenario.t_14_10 Scenario.t_14_10 Scenario.t_14_25
                    Scenario.t_14_25 finished Scenario.loaded)) eq_refl))).
Defined.

(** ** reset *)

(** In src/main.ts reset is cancel: on the plugin that has been running since
    14:00, a reset at 14:10 finalizes the record, writes its line with status
    cancelled and empties the recorder. *)
Lemma reset_in_main_ends_the_session :
  currentSession (TimerEngine.logManager Scenario.running) =
    Some (mkSession focus "No Task" None 25 Scenario.t_14_00 None [] cancelled) /\
  Vault.files (TimerEngine.vault Scenario.running)
    !! "Pomodoro_logs/2025-12-21-gentle-pomodoro-log.md" = None /\
  currentSession
    (TimerEngine.logManager
       (TimerEngine.reset Scenario.normalizePath Moment.UTC Scenario.t_14_10 Scenario.t_14_10
          Scenario.running)) = None /\
  Vault.files
    (TimerEngine.vault
       (TimerEngine.reset Scenario.normalizePath Moment.UTC Scenario.t_14_10 Scenario.t_14_10
          Scenario.running))
    !! "Pomodoro_logs/2025-12-21-gentle-pomodoro-log.md" =
    Some "- 🍅 Focus | Task:: No Task | Start:: 2025-12-21 14:00:00 | End:: 2025-12-21 14:10:00 | Scheduled:: 1500 | Pauses:: [] | Total:: 600 | Status:: cancelled" /\
  ~ (TimerEngine.logManager
       (TimerEngine.reset Scenario.normalizePath Moment.UTC Scenario.t_14_10 Scenario.t_14_10
          Scenario.running) = TimerEngine.logManager Scenario.running /\
     TimerEngine.vault
       (TimerEngine.reset Scenario.normalizePath Moment.UTC Scenario.t_14_10 Scenario.t_14_10
          Scenario.running) = TimerEngine.vault Scenario.running).
Proof.
  split; [reflexivity|]. split; [reflexivity|].
  split; [vm_compute; reflexivity|]. split; [vm_compute; reflexivity|].
  intros [H _]. apply (f_equal currentSession) in H. vm_compute in H. discriminate H.
Qed.

(** C2, as the code has it.  reset restores remainingMs (and totalMs) to the
    full scheduled duration of the current mode.  In src/main.ts it does so
    through cancel: the session in progress is ended with status cancelled,
    exactly as an awaited endSession does, the recorder is empty afterwards
    and the timer is stopped.  In the revision of src/unnamed/part_000 the
    logging session is not ended: the recorder and the vault are unchanged
    (the record is not finalized, no line is written, startTime is kept),
    the running flag is kept, and only the countdown and the wall-clock target
    are reset. *)
Theorem reset_restores_countdown
    (normalizePath : string -> string) (tz : Moment.t -> Z)
    (tPause tEnd : Moment.t) (tNow : Z) (w : TimerEngine.GentlePomoPlugin) :
  let total := TimerEngine.minutesFor (TimerEngine.mode (TimerEngine.state w)) (TimerEngine.settings w) * 60 * 1000 in
  let w1 := TimerEngine.reset normalizePath tz tPause tEnd w in
  let w2 := Revised.reset tNow w in
  (TimerEngine.state w1 = TimerEngine.mkState (TimerEngine.mode (TimerEngine.state w)) false total total /\
   endSession normalizePath tz (TimerEngine.logFolderPath (TimerEngine.settings w)) tPause tEnd
     cancelled (TimerEngine.logManager w) (TimerEngine.vault w) =
     (TimerEngine.logManager w1, Returned (TimerEngine.vault w1)) /\
   currentSession (TimerEngine.logManager w1) = None /\
   TimerEngine.targetTime w1 = None) /\
  (TimerEngine.state w2 =
     TimerEngine.mkState (TimerEngine.mode (TimerEngine.state w)) (TimerEngine.isRunning (TimerEngine.state w))
       total total /\
   TimerEngine.logManager w2 = TimerEngine.logManager w /\
   TimerEngine.vault w2 = TimerEngine.vault w /\
   TimerEngine.settings w2 = TimerEngine.settings w /\
   TimerEngine.targetTime w2 =
     (if TimerEngine.isRunning (TimerEngine.state w) then Some (tNow + total) else None) /\
   TimerEngine.intervalActive w2 =
     (if TimerEngine.isRunning (TimerEngine.state w) then TimerEngine.intervalActive w else false)).
Proof.
  intros total w1 w2. split.
  - unfold w1, TimerEngine.reset, TimerEngine.cancel.
    rewrite (endSession_then_switch normalizePath tz cancelled tPause tEnd (fun m => m) w).
    simpl. split; [reflexivity|]. split; [|split; [|reflexivity]].
    + apply endSession_returns.
    + apply endSession_clears.
  - unfold w2, Revised.reset. cbv zeta. simpl.
    destruct (TimerEngine.isRunning (TimerEngine.state w)); simpl; repeat split; reflexivity.
Qed.

(** The revised reset on the running plugin: the record of 14:00 is still the
    one in progress and the vault has no file. *)
Lemma revised_reset_scenario :
  currentSession (TimerEngine.logManager (Revised.reset Scenario.t_14_10 Scenario.running)) =
    Some (mkSession focus "No Task" None 25 Scenario.t_14_00 None [] cancelled) /\
  TimerEngine.vault (Revised.reset Scenario.t_14_10 Scenario.running) = Vault.empty /\
  TimerEngine.remainingMs (TimerEngine.state (Revised.reset Scenario.t_14_10 Scenario.running)) =
    1500000.
Proof. repeat split. Qed.

(** ** Whole runs of the plugin *)

(** Start at 14:00 on a linked task, pause from 14:10 to 14:12, Finish at
    14:25: the day's file holds one line, and the timer is stopped in rest
    mode. *)
Lemma finish_scenario :
  let w := TimerEngine.finish Scenario.normalizePath Moment.UTC
             Scenario.t_14_25 Scenario.t_14_25 Scenario.t_14_25 Scenario.t_14_25
             Scenario.working in
  Vault.files (TimerEngine.vault w) !! "Pomodoro_logs/2025-12-21-gentle-pomodoro-log.md" =
    Some ("- 🍅 Focus | Task:: [[Path/To/File.md|Task Name #tag]] | Start:: 2025-12-21 14:00:00 | End:: 2025-12-21 14:25:00 | Scheduled:: 1500 | Pauses:: ["
          +:+ JS.dquote +:+ "2025-12-21 14:10:00 - 2025-12-21 14:12:00" +:+ JS.dquote +:+
          "] | Total:: 1380 | Status:: finished") /\
  TimerEngine.state w = TimerEngine.mkState break false 300000 300000 /\
  TimerEngine.logManager w = LogManager.initial.
Proof. vm_compute. repeat split. Qed.

(** Skip at 14:10 of the focus session running since 14:00, then Start and
    Skip of the rest that follows: the file holds the cancelled focus line and
    the rest line, which has no Status field. *)
Lemma skip_scenario :
  let w1 := TimerEngine.skip Scenario.normalizePath Moment.UTC Scenario.t_14_10 Scenario.t_14_10
              Scenario.running in
  let w2 := TimerEngine.skip Scenario.normalizePath Moment.UTC Scenario.t_14_12 Scenario.t_14_12
              (TimerEngine.start Scenario.t_14_11 Scenario.t_14_11 w1) in
  Vault.files (TimerEngine.vault w2) !! "Pomodoro_logs/2025-12-21-gentle-pomodoro-log.md" =
    Some ("- 🍅 Focus | Task:: No Task | Start:: 2025-12-21 14:00:00 | End:: 2025-12-21 14:10:00 | Scheduled:: 1500 | Pauses:: [] | Total:: 600 | Status:: cancelled"
          +:+ JS.nl +:+
          "- ☕ Rest | Start:: 2025-12-21 14:11:00 | End:: 2025-12-21 14:12:00 | Scheduled:: 300 | Total:: 60") /\
  TimerEngine.state w1 = TimerEngine.mkState break false 300000 300000 /\
  TimerEngine.state w2 = TimerEngine.mkState focus false 1500000 1500000.
Proof. vm_compute. repeat split. Qed.

(** The order of events in handleFinished: endSession is not awaited, so the
    startSession of an auto-started mode still finds the record that is being
    written and takes the call for a resume; once the write has settled no
    record is in progress although the timer is running. *)
Lemma autostart_after_finish_opens_no_record :
  let w := TimerEngine.finish Scenario.normalizePath Moment.UTC
             Scenario.t_14_25 Scenario.t_14_25 Scenario.t_14_25 Scenario.t_14_25
             Scenario.running_autoStartBreak in
  TimerEngine.state w = TimerEngine.mkState break true 300000 300000 /\
  currentSession (TimerEngine.logManager w) = None.
Proof. vm_compute. repeat split. Qed.

(** * Further properties of the recorder *)

(** ** Pause and resume cycles *)

Lemma cycles_on_active (m : PomoMode) (name : string) (minutes : Z)
    (path : option string) (prs : list (Moment.t * Moment.t))
    (s : SessionLog) (pending : option Moment.t) :
  prs <> [] ->
  Calls.cycles m name minutes path prs (mkLog (Some s) pending) =
  mkLog
    (Some (mkSession (LogManager.mode s) (taskName s) (taskPath s)
             (scheduledDurationMinutes s) (startTime s) (endTime s)
             (pauses s ++ map Calls.interval prs) (status s)))
    None.
Proof.
  revert s pending. induction prs as [|pr prs IH]; intros s pending Hne; [congruence|].
  unfold Calls.cycles. simpl.
  change (fold_left (Calls.pause_resume m name minutes path) prs ?x)
    with (Calls.cycles m name minutes path prs x).
  unfold Calls.pause_resume at 1. cbn.
  destruct prs as [|pr' prs].
  - reflexivity.
  - rewrite IH by congruence. unfold push_pause. cbn.
    rewrite <- app_assoc. reflexivity.
Qed.

(** X1.  Any number of pause and resume cycles on a session started at [t0]
    leaves one record whose pauses are exactly the intervals of the cycles, in
    the order they happened, with the start time, the task and the scheduled
    minutes of the first call; the arguments of the resuming calls play no
    part.  Ending the session then writes a Total of
    floor ((tEnd - t0 - the sum of the cycles) / 1000). *)
Theorem cycles_record_their_intervals
    (t0 : Moment.t) (m : PomoMode) (name : string) (minutes : Z) (path : option string)
    (m' : PomoMode) (name' : string) (minutes' : Z) (path' : option string)
    (prs : list (Moment.t * Moment.t)) (tPause tEnd : Moment.t) (st : Status) :
  let lm :=
    Calls.cycles m' name' minutes' path' prs
      (startSession t0 m name minutes path LogManager.initial) in
  let final :=
    mkSession m (JS.or_default name "No Task") path minutes t0 (Some tEnd)
      (map Calls.interval prs) st in
  lm = mkLog (Some (mkSession m (JS.or_default name "No Task") path minutes t0 None
                      (map Calls.interval prs) cancelled)) None /\
  endSession_sync tPause tEnd st lm = mkLog (Some final) None /\
  totalSeconds final tEnd =
    ((tEnd - t0) - SpecWords.sum_pauses (map Calls.interval prs)) / 1000.
Proof.
  intros lm final.
  assert (Hlm : lm = mkLog (Some (mkSession m (JS.or_default name "No Task") path minutes
                                    t0 None (map Calls.interval prs) cancelled)) None).
  { unfold lm. destruct prs as [|pr prs]; [reflexivity|].
    change (startSession t0 m name minutes path LogManager.initial)
      with (mkLog (Some (mkSession m (JS.or_default name "No Task") path minutes t0
                           None [] cancelled)) None).
    rewrite cycles_on_active by congruence. reflexivity. }
  split; [exact Hlm|]. split.
  - rewrite Hlm. reflexivity.
  - rewrite totalSeconds_spec. reflexivity.
Qed.

(** ** The recorder under a clock that never runs backwards *)

Lemma chronological_bounds (lo hi : Moment.t) (ps : list Pause) :
  Calls.chronological lo ps hi -> lo <= hi.
Proof.
  revert lo. induction ps as [|p ps IH]; intros lo H; simpl in H; [exact H|].
  destruct H as [H1 [H2 H3]]. specialize (IH _ H3). lia.
Qed.

Lemma chronological_weaken (lo hi hi' : Moment.t) (ps : list Pause) :
  Calls.chronological lo ps hi -> hi <= hi' -> Calls.chronological lo ps hi'.
Proof.
  revert lo. induction ps as [|p ps IH]; intros lo H Hle; simpl in *; [lia|].
  destruct H as [H1 [H2 H3]]. repeat split; auto.
Qed.

Lemma chronological_snoc (lo a b hi : Moment.t) (ps : list Pause) :
  Calls.chronological lo ps a -> a <= b -> b <= hi ->
  Calls.chronological lo (ps ++ [mkPause a b]) hi.
Proof.
  revert lo. induction ps as [|p ps IH]; intros lo H Hab Hb; simpl in *.
  - repeat split; assumption.
  - destruct H as [H1 [H2 H3]]. repeat split; auto.
Qed.

Lemma chronological_sum (lo hi : Moment.t) (ps : list Pause) :
  Calls.chronological lo ps hi ->
  0 <= SpecWords.sum_pauses ps /\ SpecWords.sum_pauses ps <= hi - lo.
Proof.
  revert lo. induction ps as [|p ps IH]; intros lo H; simpl in *; [lia|].
  destruct H as [H1 [H2 H3]]. specialize (IH _ H3). lia.
Qed.

Lemma reached_well_formed (t : Moment.t) (lm : LogManager.t) :
  Calls.reached t lm -> Calls.well_formed t lm.
Proof.
  induction 1 as [t | t t' lm Hr IH Hle | t lm m name minutes path Hr IH
                 | t lm Hr IH | t lm name path Hr IH
                 | np tz folder v t tEnd lm st Hr IH Hle].
  - split; [reflexivity|]. intros s Hs. discriminate Hs.
  - destruct IH as [IH1 IH2]. split; [exact IH1|].
    intros s Hs. destruct (IH2 s Hs) as [He [Hst Hc]]. repeat split; auto.
    destruct (currentPauseStart lm) as [p|].
    + destruct Hc as [Hc Hp]. split; [exact Hc|lia].
    + exact (chronological_weaken _ _ _ _ Hc Hle).
  - destruct IH as [IH1 IH2]. unfold startSession, resumeSession.
    destruct (currentSession lm) as [s|] eqn:Hs.
    + destruct (IH2 s eq_refl) as [He [Hst Hc]].
      destruct (currentPauseStart lm) as [p|] eqn:Hp.
      * split; [intros Hn; discriminate Hn|].
        intros s' Hs'. injection Hs' as <-. simpl. repeat split; auto.
        destruct Hc as [Hc Hpt]. apply chronological_snoc; [exact Hc|exact Hpt|lia].
      * split; [intros Hn; congruence|].
        intros s' Hs'. rewrite Hs in Hs'. injection Hs' as <-. rewrite Hp.
        repeat split; auto.
    + rewrite (IH1 eq_refl). split; [intros Hn; discriminate Hn|].
      intros s' Hs'. injection Hs' as <-. simpl. repeat split; lia.
  - destruct IH as [IH1 IH2]. unfold pauseSession.
    destruct (currentSession lm) as [s|] eqn:Hs.
    + split; [intros Hn; discriminate Hn|].
      intros s' Hs'. injection Hs' as <-. simpl.
      destruct (IH2 s eq_refl) as [He [Hst Hc]]. repeat split; auto; [|lia].
      destruct (currentPauseStart lm) as [p|].
      * destruct Hc as [Hc Hp]. exact (chronological_weaken _ _ _ _ Hc Hp).
      * exact Hc.
    + split; [intros _; auto|]. intros s' Hs'. congruence.
  - destruct IH as [IH1 IH2]. unfold updateTask.
    destruct (currentSession lm) as [s|] eqn:Hs.
    + split; [intros Hn; discriminate Hn|].
      intros s' Hs'. injection Hs' as <-. simpl.
      destruct (IH2 s eq_refl) as [He [Hst Hc]]. repeat split; auto.
    + split; [intros _; auto|]. intros s' Hs'. congruence.
  - destruct (currentSession lm) as [s|] eqn:Hs.
    + rewrite (endSession_active np tz folder t tEnd st lm s v Hs). simpl.
      split; [reflexivity|]. intros s' Hs'. discriminate Hs'.
    + rewrite (endSession_idle np tz folder t tEnd st lm v Hs). simpl.
      destruct IH as [IH1 IH2]. split; [intros _; auto|].
      intros s' Hs'. congruence.
Qed.

(** X2.  When the clock never runs backwards, every state the recorder reaches
    holds a pending pause only together with a record, its record has no end
    time yet and the default status cancelled, and its pauses are in
    chronological order after the start time.  Ending the session then gives
    a net duration between zero and the gross time from start to end, so the
    Total of the line is never negative. *)
Theorem totals_are_bounded_under_a_monotone_clock
    (t tPause tEnd : Moment.t) (lm : LogManager.t) (s : SessionLog) (st : Status) :
  Calls.reached t lm ->
  currentSession lm = Some s ->
  t <= tPause -> tPause <= tEnd ->
  let final := SpecWords.finalized (currentPauseStart lm) s tPause tEnd st in
  Calls.well_formed t lm /\
  Calls.chronological (startTime s) (pauses final) tEnd /\
  0 <= totalDurationMs final tEnd <= tEnd - startTime s /\
  0 <= totalSeconds final tEnd <= (tEnd - startTime s) / 1000.
Proof.
  intros Hr Hs HtP HtE final.
  pose proof (reached_well_formed t lm Hr) as Hwf.
  split; [exact Hwf|].
  destruct Hwf as [_ Hwf]. destruct (Hwf s Hs) as [_ [_ Hc]].
  assert (Hchron : Calls.chronological (startTime s) (pauses final) tEnd).
  { unfold final, SpecWords.finalized. destruct (currentPauseStart lm) as [p|]; simpl.
    - destruct Hc as [Hc Hp]. apply chronological_snoc; [exact Hc|lia|lia].
    - apply (chronological_weaken _ t); [exact Hc|lia]. }
  split; [exact Hchron|].
  pose proof (chronological_sum _ _ _ Hchron) as [Hlo Hhi].
  assert (Hms : 0 <= totalDurationMs final tEnd <= tEnd - startTime s).
  { unfold totalDurationMs, Moment.diff. rewrite totalPauseMs_sum.
    replace (startTime final) with (startTime s)
      by (unfold final, SpecWords.finalized; destruct (currentPauseStart lm); reflexivity).
    lia. }
  split; [exact Hms|].
  unfold totalSeconds. split.
  - apply Z.div_pos; lia.
  - apply Z.div_le_mono; lia.
Qed.

Lemma monotone_clock_scenario :
  0 <= totalSeconds
         (SpecWords.finalized None
            (mkSession focus Scenario.task Scenario.taskFile 25 Scenario.t_14_00 None
               [mkPause Scenario.t_14_10 Scenario.t_14_12] cancelled)
            Scenario.t_14_25 Scenario.t_14_25 finished) Scenario.t_14_25 <=
  (Scenario.t_14_25 - Scenario.t_14_00) / 1000.
Proof.
  assert (Hr : Calls.reached Scenario.t_14_12 Scenario.resumed).
  { apply Calls.reached_startSession.
    apply (Calls.reached_later Scenario.t_14_10); [|vm_compute; discriminate].
    apply Calls.reached_pauseSession.
    apply (Calls.reached_later Scenario.t_14_00); [|vm_compute; discriminate].
    apply Calls.reached_startSession. apply Calls.reached_initial. }
  refine (proj2 (proj2 (proj2
    (totals_are_bounded_under_a_monotone_clock Scenario.t_14_12 Scenario.t_14_25
       Scenario.t_14_25 Scenario.resumed _ finished Hr eq_refl _ _)))).
  - vm_compute; discriminate.
  - vm_compute; discriminate.
Defined.

(** ** Changing the task in the middle of a session *)

(** X3.  A task picked while a session is in progress replaces the task of its
    record and nothing else (start time, pauses, pending pause, scheduled
    minutes are kept), the last pick wins, and the line written when the
    session ends carries it.  With no session in progress the recorder is
    untouched and the next Start opens its record with the picked task, an
    empty name being stored as No Task. *)
Theorem latest_task_is_logged
    (normalizePath : string -> string) (tz : Moment.t -> Z)
    (name0 name : string) (path0 path : option string)
    (tPause tEnd tLog : Moment.t) (tNow : Z) (st : Status)
    (w : TimerEngine.GentlePomoPlugin) :
  let w' := TimerEngine.setTask name path w in
  let lm := TimerEngine.logManager w in
  (forall s, currentSession lm = Some s ->
     TimerEngine.logManager w' =
       mkLog (Some (Calls.with_task name path s)) (currentPauseStart lm) /\
     TimerEngine.logManager (TimerEngine.setTask name path (TimerEngine.setTask name0 path0 w)) =
       TimerEngine.logManager w' /\
     endSession normalizePath tz (TimerEngine.logFolderPath (TimerEngine.settings w'))
       tPause tEnd st (TimerEngine.logManager w') (TimerEngine.vault w') =
     (mkLog None None,
      Returned
        (outcome_vault
           (writeLog normalizePath tz (TimerEngine.logFolderPath (TimerEngine.settings w))
              (Calls.with_task name path
                 (SpecWords.finalized (currentPauseStart lm) s tPause tEnd st))
              (TimerEngine.vault w))))) /\
  (currentSession lm = None ->
     TimerEngine.logManager w' = lm /\
     (TimerEngine.isRunning (TimerEngine.state w) = false ->
      TimerEngine.logManager (TimerEngine.start tLog tNow w') =
        mkLog
          (Some (mkSession (TimerEngine.mode (TimerEngine.state w))
                   (JS.or_default name "No Task") path
                   (TimerEngine.minutesFor (TimerEngine.mode (TimerEngine.state w))
                      (TimerEngine.settings w))
                   tLog None [] cancelled))
          (currentPauseStart lm))).
Proof.
  intros w' lm.
  assert (Hlog : TimerEngine.logManager w' = updateTask name path lm) by reflexivity.
  assert (Hvault : TimerEngine.vault w' = TimerEngine.vault w) by reflexivity.
  assert (Hcfg : TimerEngine.settings w' = TimerEngine.settings w) by reflexivity.
  split.
  - intros s Hs.
    assert (Hupd : updateTask name path lm =
                   mkLog (Some (Calls.with_task name path s)) (currentPauseStart lm)).
    { unfold updateTask. rewrite Hs. reflexivity. }
    split; [now rewrite Hlog|]. split.
    + change (TimerEngine.logManager
                (TimerEngine.setTask name path (TimerEngine.setTask name0 path0 w)))
        with (updateTask name path (updateTask name0 path0 lm)).
      rewrite Hlog, Hupd. unfold updateTask. rewrite Hs. reflexivity.
    + rewrite Hlog, Hvault, Hcfg, Hupd.
      rewrite (endSession_active normalizePath tz _ tPause tEnd st
                 (mkLog (Some (Calls.with_task name path s)) (currentPauseStart lm))
                 (Calls.with_task name path s) _ eq_refl).
      simpl. unfold SpecWords.finalized.
      destruct (currentPauseStart lm); reflexivity.
  - intros Hs.
    assert (Hupd : updateTask name path lm = lm).
    { unfold updateTask. now rewrite Hs. }
    split; [now rewrite Hlog|].
    intros Hrun. unfold TimerEngine.start.
    change (TimerEngine.state w') with (TimerEngine.state w). rewrite Hrun.
    cbn -[startSession updateTask]. fold lm. rewrite Hupd.
    unfold startSession. rewrite Hs. reflexivity.
Qed.

Lemma latest_task_scenario :
  TimerEngine.logManager
    (TimerEngine.setTask "Write report" (Some "Notes/Work.md") Scenario.running) =
  mkLog
    (Some (mkSession focus "Write report" (Some "Notes/Work.md") 25 Scenario.t_14_00
             None [] cancelled))
    None.
Proof.
  exact (proj1 (proj1 (latest_task_is_logged Scenario.normalizePath Moment.UTC
                         "" "Write report" None (Some "Notes/Work.md")
                         Scenario.t_14_25 Scenario.t_14_25 Scenario.t_14_25
                         Scenario.t_14_25 finished Scenario.running)
                  (mkSession focus "No Task" None 25 Scenario.t_14_00 None [] cancelled)
                  eq_refl)).
Defined.

(** * Further properties of the engine *)

(** ** The handlers in closed form *)

Section Handlers.

Variable normalizePath : string -> string.
Variable tz : Moment.t -> Z.

Lemma switchMode_result (m : PomoMode) (autoStart : option (Moment.t * Z))
    (w : TimerEngine.GentlePomoPlugin) :
  TimerEngine.switchMode m autoStart w =
  Run.switched m autoStart
    match autoStart with
    | Some (tLog, _) =>
        startSession tLog m (TimerEngine.currentTaskName w)
          (TimerEngine.minutesFor m (TimerEngine.settings w))
          (TimerEngine.currentTaskPath w) (TimerEngine.logManager w)
    | None => TimerEngine.logManager w
    end
    (TimerEngine.vault w) w.
Proof. destruct autoStart as [[tLog tNow]|]; reflexivity. Qed.

Lemma endSession_then_switch_any (st : Status) (tPause tEnd : Moment.t)
    (next : PomoMode) (autoStart : option (Moment.t * Z))
    (w : TimerEngine.GentlePomoPlugin) :
  let lm := TimerEngine.logManager w in
  TimerEngine.endSession_then normalizePath tz st tPause tEnd
    (fun w1 => TimerEngine.switchMode next autoStart w1) w =
  Run.switched next autoStart
    match currentSession lm, autoStart with
    | Some _, _ => mkLog None None
    | None, Some (tLog, _) =>
        startSession tLog next (TimerEngine.currentTaskName w)
          (TimerEngine.minutesFor next (TimerEngine.settings w))
          (TimerEngine.currentTaskPath w) lm
    | None, None => lm
    end
    (outcome_vault
       (snd (endSession normalizePath tz (TimerEngine.logFolderPath (TimerEngine.settings w))
               tPause tEnd st lm (TimerEngine.vault w))))
    w.
Proof.
  intros lm. unfold TimerEngine.endSession_then. fold lm.
  destruct (currentSession lm) as [s|] eqn:Hs.
  - rewrite (endSession_sync_active tPause tEnd st lm s Hs).
    rewrite (endSession_active normalizePath tz _ tPause tEnd st lm s _ Hs).
    pose proof (endSession_settle_finalized normalizePath tz
                  (TimerEngine.logFolderPath (TimerEngine.settings w))
                  (SpecWords.finalized (currentPauseStart lm) s tPause tEnd st) tEnd None
                  (TimerEngine.vault w) eq_refl) as Hsettle.
    unfold TimerEngine.settle.
    destruct autoStart as [[tLog tNow]|];
      cbn -[endSession_settle writeLog SpecWords.finalized];
      rewrite Hsettle; reflexivity.
  - rewrite switchMode_result.
    rewrite (endSession_idle normalizePath tz _ tPause tEnd st lm _ Hs).
    destruct autoStart as [[tLog tNow]|]; reflexivity.
Qed.

Lemma finish_result (tPause tEnd tLog : Moment.t) (tNow : Z)
    (w : TimerEngine.GentlePomoPlugin) :
  let lm := TimerEngine.logManager w in
  let next := TimerEngine.otherMode (TimerEngine.mode (TimerEngine.state w)) in
  let autoStart :=
    TimerEngine.autoStartFor
      (Run.autoStartNext (TimerEngine.mode (TimerEngine.state w)) (TimerEngine.settings w))
      tLog tNow in
  TimerEngine.finish normalizePath tz tPause tEnd tLog tNow w =
  Run.switched next autoStart
    match currentSession lm, autoStart with
    | Some _, _ => mkLog None None
    | None, Some (tLog, _) =>
        startSession tLog next (TimerEngine.currentTaskName w)
          (TimerEngine.minutesFor next (TimerEngine.settings w))
          (TimerEngine.currentTaskPath w) lm
    | None, None => lm
    end
    (outcome_vault
       (snd (endSession normalizePath tz (TimerEngine.logFolderPath (TimerEngine.settings w))
               tPause tEnd finished lm (TimerEngine.vault w))))
    w.
Proof.
  intros lm next autoStart.
  transitivity
    (TimerEngine.endSession_then normalizePath tz finished tPause tEnd
       (fun w1 => TimerEngine.switchMode next autoStart w1) w).
  - unfold TimerEngine.finish, TimerEngine.handleFinished, TimerEngine.endSession_then.
    unfold next, autoStart, Run.autoStartNext.
    destruct (currentSession (TimerEngine.logManager w));
      cbn [TimerEngine.state TimerEngine.settings TimerEngine.set_log];
      destruct (TimerEngine.mode (TimerEngine.state w)); reflexivity.
  - apply endSession_then_switch_any.
Qed.

Lemma skip_result (tPause tEnd : Moment.t) (w : TimerEngine.GentlePomoPlugin) :
  TimerEngine.skip normalizePath tz tPause tEnd w =
  Run.switched (TimerEngine.otherMode (TimerEngine.mode (TimerEngine.state w))) None
    match currentSession (TimerEngine.logManager w) with
    | Some _ => mkLog None None
    | None => TimerEngine.logManager w
    end
    (outcome_vault
       (snd (endSession normalizePath tz (TimerEngine.logFolderPath (TimerEngine.settings w))
               tPause tEnd (TimerEngine.skipStatus (TimerEngine.mode (TimerEngine.state w)))
               (TimerEngine.logManager w) (TimerEngine.vault w))))
    w.
Proof.
  transitivity
    (TimerEngine.endSession_then normalizePath tz
       (TimerEngine.skipStatus (TimerEngine.mode (TimerEngine.state w))) tPause tEnd
       (fun w1 =>
          TimerEngine.switchMode
            (TimerEngine.otherMode (TimerEngine.mode (TimerEngine.state w))) None w1) w).
  - unfold TimerEngine.skip, TimerEngine.endSession_then.
    destruct (currentSession (TimerEngine.logManager w)); reflexivity.
  - rewrite endSession_then_switch_any.
    destruct (currentSession (TimerEngine.logManager w)); reflexivity.
Qed.

Lemma reset_result (tPause tEnd : Moment.t) (w : TimerEngine.GentlePomoPlugin) :
  TimerEngine.reset normalizePath tz tPause tEnd w =
  Run.switched (TimerEngine.mode (TimerEngine.state w)) None
    match currentSession (TimerEngine.logManager w) with
    | Some _ => mkLog None None
    | None => TimerEngine.logManager w
    end
    (outcome_vault
       (snd (endSession normalizePath tz (TimerEngine.logFolderPath (TimerEngine.settings w))
               tPause tEnd cancelled (TimerEngine.logManager w) (TimerEngine.vault w))))
    w.
Proof.
  transitivity
    (TimerEngine.endSession_then normalizePath tz cancelled tPause tEnd
       (fun w1 =>
          TimerEngine.switchMode (TimerEngine.mode (TimerEngine.state w)) None w1) w).
  - unfold TimerEngine.reset, TimerEngine.cancel, TimerEngine.endSession_then.
    destruct (currentSession (TimerEngine.logManager w)); reflexivity.
  - rewrite endSession_then_switch_any.
    destruct (currentSession (TimerEngine.logManager w)); reflexivity.
Qed.

End Handlers.

(** ** The log only grows *)

Lemma string_app_empty (a : string) : a +:+ "" = a.
Proof.
  induction a as [|c a IH]; [reflexivity|].
  change (String c a +:+ "") with (String c (a +:+ "")). now rewrite IH.
Qed.

Lemma extends_refl (v : Vault.t) : Run.extends v v.
Proof.
  split; [reflexivity|]. intros path old H. exists "". now rewrite string_app_empty.
Qed.

Lemma extends_trans (v1 v2 v3 : Vault.t) :
  Run.extends v1 v2 -> Run.extends v2 v3 -> Run.extends v1 v3.
Proof.
  intros [Hd12 Hf12] [Hd23 Hf23]. split; [etransitivity; eassumption|].
  intros path old H. destruct (Hf12 path old H) as [a Ha].
  destruct (Hf23 path _ Ha) as [b Hb]. exists (a +:+ b).
  now rewrite <- string_app_assoc.
Qed.

Section Growth.

Variable normalizePath : string -> string.
Variable tz : Moment.t -> Z.

Lemma writeLog_extends (folder : string) (s : SessionLog) (v : Vault.t) :
  Run.extends v (outcome_vault (writeLog normalizePath tz folder s v)).
Proof.
  unfold writeLog. destruct (String.eqb folder ""); [apply extends_refl|].
  set (v1 := if Vault.exists_ (normalizePath folder) v then v
             else Vault.createFolder (normalizePath folder) v).
  assert (H1 : Run.extends v v1).
  { unfold v1. destruct (Vault.exists_ _ v); [apply extends_refl|].
    split; [apply union_subseteq_r|].
    intros path old H. exists "". now rewrite string_app_empty. }
  destruct (endTime s) as [e|]; [|exact H1].
  apply (extends_trans _ _ _ H1).
  set (path := filePath normalizePath tz folder s).
  destruct (Vault.exists_ path v1) eqn:Hex.
  - destruct (Vault.isFile path v1); [|apply extends_refl].
    unfold Vault.append. destruct (Vault.files v1 !! path) as [old|] eqn:Hold;
      [|apply extends_refl].
    split; [reflexivity|]. intros q old' Hq. simpl.
    destruct (decide (q = path)) as [->|Hne].
    + rewrite lookup_insert_eq. rewrite Hold in Hq. injection Hq as <-. eauto.
    + rewrite lookup_insert_ne by congruence. exists "". now rewrite string_app_empty.
  - split; [reflexivity|]. intros q old Hq. simpl.
    destruct (decide (q = path)) as [->|Hne].
    + exfalso. unfold Vault.exists_ in Hex. apply orb_false_iff in Hex as [_ Hex].
      apply bool_decide_eq_false in Hex. apply Hex. eauto.
    + rewrite lookup_insert_ne by congruence. exists "". now rewrite string_app_empty.
Qed.

Lemma endSession_extends (folder : string) (tPause tEnd : Moment.t) (st : Status)
    (lm : LogManager.t) (v : Vault.t) :
  Run.extends v
    (outcome_vault (snd (endSession normalizePath tz folder tPause tEnd st lm v))).
Proof.
  destruct (currentSession lm) as [s|] eqn:Hs.
  - rewrite (endSession_active normalizePath tz folder tPause tEnd st lm s v Hs).
    apply writeLog_extends.
  - rewrite (endSession_idle normalizePath tz folder tPause tEnd st lm v Hs).
    apply extends_refl.
Qed.

Lemma step_vault (w : TimerEngine.GentlePomoPlugin) (e : Run.Event) :
  TimerEngine.vault (Run.step normalizePath tz w e) = TimerEngine.vault w \/
  exists tPause tEnd st,
    TimerEngine.vault (Run.step normalizePath tz w e) =
    outcome_vault
      (snd (endSession normalizePath tz (TimerEngine.logFolderPath (TimerEngine.settings w))
              tPause tEnd st (TimerEngine.logManager w) (TimerEngine.vault w))).
Proof.
  destruct e as [tLog tNow | tLog | now | tPause tEnd tLog tNow | tPause tEnd
                | tPause tEnd | delta | name path | val | val]; simpl.
  - left. unfold TimerEngine.start. destruct (TimerEngine.isRunning _); reflexivity.
  - left. unfold TimerEngine.pause. destruct (TimerEngine.isRunning _); reflexivity.
  - left. unfold TimerEngine.tick. destruct (TimerEngine.targetTime w); [|reflexivity].
    destruct (TimerEngine.isRunning _); reflexivity.
  - right. exists tPause, tEnd, finished. now rewrite finish_result.
  - right. exists tPause, tEnd, (TimerEngine.skipStatus (TimerEngine.mode (TimerEngine.state w))).
    now rewrite skip_result.
  - right. exists tPause, tEnd, cancelled. now rewrite reset_result.
  - left. unfold TimerEngine.addMinutes. cbv zeta. simpl.
    destruct (TimerEngine.targetTime w); [|reflexivity].
    destruct (TimerEngine.isRunning _); reflexivity.
  - left. reflexivity.
  - left. unfold GentlePomoView.focusInputChange. destruct val as [n|]; [|reflexivity].
    destruct (n >? 0)%Z; [|reflexivity]. unfold TimerEngine.updateDuration. simpl.
    destruct (TimerEngine.mode_eqb _ _); reflexivity.
  - left. unfold GentlePomoView.breakInputChange. destruct val as [n|]; [|reflexivity].
    destruct (n >? 0)%Z; [|reflexivity]. unfold TimerEngine.updateDuration. simpl.
    destruct (TimerEngine.mode_eqb _ _); reflexivity.
Qed.

Lemma step_logFolderPath (w : TimerEngine.GentlePomoPlugin) (e : Run.Event) :
  TimerEngine.logFolderPath (TimerEngine.settings (Run.step normalizePath tz w e)) =
  TimerEngine.logFolderPath (TimerEngine.settings w).
Proof.
  destruct e as [tLog tNow | tLog | now | tPause tEnd tLog tNow | tPause tEnd
                | tPause tEnd | delta | name path | val | val]; simpl.
  - unfold TimerEngine.start. destruct (TimerEngine.isRunning _); reflexivity.
  - unfold TimerEngine.pause. destruct (TimerEngine.isRunning _); reflexivity.
  - unfold TimerEngine.tick. destruct (TimerEngine.targetTime w); [|reflexivity].
    destruct (TimerEngine.isRunning _); reflexivity.
  - now rewrite finish_result.
  - now rewrite skip_result.
  - now rewrite reset_result.
  - unfold TimerEngine.addMinutes. cbv zeta. simpl.
    destruct (TimerEngine.targetTime w); [|reflexivity].
    destruct (TimerEngine.isRunning _); reflexivity.
  - reflexivity.
  - unfold GentlePomoView.focusInputChange. destruct val as [n|]; [|reflexivity].
    destruct (n >? 0)%Z; [|reflexivity]. unfold TimerEngine.updateDuration. simpl.
    destruct (TimerEngine.mode_eqb _ _); reflexivity.
  - unfold GentlePomoView.breakInputChange. destruct val as [n|]; [|reflexivity].
    destruct (n >? 0)%Z; [|reflexivity]. unfold TimerEngine.updateDuration. simpl.
    destruct (TimerEngine.mode_eqb _ _); reflexivity.
Qed.

Lemma run_cons (e : Run.Event) (events : list Run.Event)
    (w : TimerEngine.GentlePomoPlugin) :
  Run.run normalizePath tz (e :: events) w =
  Run.run normalizePath tz events (Run.step normalizePath tz w e).
Proof. reflexivity. Qed.

(** X5.  Whatever the user and the clock do, the vault only grows: every folder
    stays, and every file keeps its content as the beginning of its later
    content, so no logged line is ever rewritten, reordered or removed. *)
Theorem log_is_append_only
    (events : list Run.Event) (w : TimerEngine.GentlePomoPlugin) :
  Run.extends (TimerEngine.vault w)
    (TimerEngine.vault (Run.run normalizePath tz events w)).
Proof.
  revert w. induction events as [|e events IH]; intros w; [apply extends_refl|].
  rewrite run_cons.
  apply (extends_trans _ (TimerEngine.vault (Run.step normalizePath tz w e))); [|apply IH].
  destruct (step_vault w e) as [->|[tPause [tEnd [st ->]]]].
  - apply extends_refl.
  - apply endSession_extends.
Qed.

(** X6.  With no log folder configured, no sequence of operations changes the
    vault: sessions run and end, and nothing is persisted. *)
Theorem nothing_is_written_without_a_log_folder
    (events : list Run.Event) (w : TimerEngine.GentlePomoPlugin) :
  TimerEngine.logFolderPath (TimerEngine.settings w) = "" ->
  TimerEngine.vault (Run.run normalizePath tz events w) = TimerEngine.vault w.
Proof.
  revert w. induction events as [|e events IH]; intros w Hoff; [reflexivity|].
  rewrite run_cons.
  rewrite IH by (now rewrite step_logFolderPath).
  destruct (step_vault w e) as [->|[tPause [tEnd [st ->]]]]; [reflexivity|].
  rewrite Hoff.
  destruct (currentSession (TimerEngine.logManager w)) as [s|] eqn:Hs.
  - now rewrite (endSession_active normalizePath tz "" tPause tEnd st _ s _ Hs).
  - now rewrite (endSession_idle normalizePath tz "" tPause tEnd st _ _ Hs).
Qed.

End Growth.

(** ** The effect of addMinutes, field by field *)

Lemma addMinutes_effect (delta : Z) (w : TimerEngine.GentlePomoPlugin) :
  let w' := TimerEngine.addMinutes delta w in
  TimerEngine.totalMs (TimerEngine.state w') =
    Z.max (TimerEngine.totalMs (TimerEngine.state w) + delta * 60000) 60000 /\
  TimerEngine.remainingMs (TimerEngine.state w') =
    Z.min (TimerEngine.remainingMs (TimerEngine.state w) + delta * 60000)
      (TimerEngine.totalMs (TimerEngine.state w')) /\
  TimerEngine.targetTime w' =
    (if TimerEngine.isRunning (TimerEngine.state w)
     then option_map
            (fun target =>
               target + (TimerEngine.remainingMs (TimerEngine.state w') -
                         TimerEngine.remainingMs (TimerEngine.state w)))
            (TimerEngine.targetTime w)
     else TimerEngine.targetTime w) /\
  TimerEngine.mode (TimerEngine.state w') = TimerEngine.mode (TimerEngine.state w) /\
  TimerEngine.isRunning (TimerEngine.state w') =
    TimerEngine.isRunning (TimerEngine.state w) /\
  TimerEngine.logManager w' = TimerEngine.logManager w /\
  TimerEngine.intervalActive w' = TimerEngine.intervalActive w /\
  TimerEngine.settings w' = TimerEngine.settings w.
Proof.
  destruct w as [cfg [m r rem tot] ia tgt name path em lm v].
  unfold TimerEngine.addMinutes. cbv zeta. simpl.
  assert (Htot : (if (tot + delta * 60 * 1000 <? 60 * 1000)%Z then 60 * 1000
                  else tot + delta * 60 * 1000) = Z.max (tot + delta * 60000) 60000).
  { destruct (Z.ltb_spec (tot + delta * 60 * 1000) (60 * 1000)); lia. }
  rewrite !Htot.
  assert (Hrem : (if (rem + delta * 60 * 1000 >? Z.max (tot + delta * 60000) 60000)%Z
                  then Z.max (tot + delta * 60000) 60000
                  else rem + delta * 60 * 1000) =
                 Z.min (rem + delta * 60000) (Z.max (tot + delta * 60000) 60000)).
  { rewrite Z.gtb_ltb.
    destruct (Z.ltb_spec (Z.max (tot + delta * 60000) 60000) (rem + delta * 60 * 1000)); lia. }
  rewrite !Hrem.
  destruct tgt as [target|]; destruct r; simpl; repeat split.
Qed.

(** ** What every run keeps *)

Section Consistency.

Variable normalizePath : string -> string.
Variable tz : Moment.t -> Z.

Lemma init_consistent (cfg : TimerEngine.GentlePomoSettings) (v : Vault.t) :
  1 <= TimerEngine.focusMinutes cfg ->
  1 <= TimerEngine.breakMinutes cfg ->
  Run.consistent (TimerEngine.init cfg v).
Proof.
  intros Hf Hb. unfold Run.consistent, TimerEngine.init. simpl.
  repeat split; try congruence; try lia.
Qed.

Lemma minutes_total (m : PomoMode) (cfg : TimerEngine.GentlePomoSettings) :
  1 <= TimerEngine.focusMinutes cfg ->
  1 <= TimerEngine.breakMinutes cfg ->
  60000 <= TimerEngine.minutesFor m cfg * 60 * 1000.
Proof. intros Hf Hb. destruct m; simpl; lia. Qed.

Ltac consistency :=
  repeat split; intros; simplify_eq/=; try congruence; try lia; eauto;
  try (intuition congruence).

Lemma switched_consistent (next : PomoMode) (autoStart : option (Moment.t * Z))
    (v : Vault.t) (w : TimerEngine.GentlePomoPlugin) :
  Run.consistent w ->
  Run.consistent
    (Run.switched next autoStart
       match currentSession (TimerEngine.logManager w), autoStart with
       | Some _, _ => mkLog None None
       | None, Some (tLog, _) =>
           startSession tLog next (TimerEngine.currentTaskName w)
             (TimerEngine.minutesFor next (TimerEngine.settings w))
             (TimerEngine.currentTaskPath w) (TimerEngine.logManager w)
       | None, None => TimerEngine.logManager w
       end
       v w).
Proof.
  intros (H1 & H2 & H3 & H4 & H5 & H6 & H7 & H8).
  pose proof (minutes_total next _ H7 H8) as Htot.
  unfold Run.consistent, Run.switched. cbn zeta.
  destruct (currentSession (TimerEngine.logManager w)) as [s|] eqn:Hs.
  - destruct autoStart as [[tLog tNow]|]; simpl; consistency.
  - specialize (H4 eq_refl).
    destruct autoStart as [[tLog tNow]|]; simpl.
    + unfold startSession. rewrite Hs, H4. simpl. consistency.
    + rewrite Hs. consistency.
Qed.

Lemma step_consistent (w : TimerEngine.GentlePomoPlugin) (e : Run.Event) :
  Run.consistent w -> Run.consistent (Run.step normalizePath tz w e).
Proof.
  intros Hw.
  destruct e as [tLog tNow | tLog | now | tPause tEnd tLog tNow | tPause tEnd
                | tPause tEnd | delta | name path | val | val]; simpl.
  - (* start *)
    unfold TimerEngine.start.
    destruct (TimerEngine.isRunning (TimerEngine.state w)) eqn:Hrun; [exact Hw|].
    destruct Hw as (H1 & H2 & H3 & H4 & H5 & H6 & H7 & H8).
    unfold Run.consistent. cbn -[startSession].
    unfold startSession, resumeSession.
    destruct (currentSession (TimerEngine.logManager w)) as [s|] eqn:Hs.
    + destruct (H5 s eq_refl) as (Hm & He & Hp).
      destruct (currentPauseStart (TimerEngine.logManager w)) as [p|] eqn:Hpe.
      * simpl. consistency.
      * exfalso. now apply Hp.
    + rewrite (H4 eq_refl). simpl. consistency.
  - (* pause *)
    unfold TimerEngine.pause.
    destruct (TimerEngine.isRunning (TimerEngine.state w)) eqn:Hrun; [|exact Hw].
    destruct Hw as (H1 & H2 & H3 & H4 & H5 & H6 & H7 & H8).
    unfold Run.consistent. cbn -[pauseSession]. unfold pauseSession.
    destruct (currentSession (TimerEngine.logManager w)) as [s|] eqn:Hs.
    + destruct (H5 s eq_refl) as (Hm & He & Hp). simpl. consistency.
    + rewrite Hs. consistency.
  - (* tick *)
    unfold TimerEngine.tick.
    destruct (TimerEngine.targetTime w) as [target|] eqn:Ht; [|exact Hw].
    destruct (TimerEngine.isRunning (TimerEngine.state w)) eqn:Hrun; [|exact Hw].
    destruct Hw as (H1 & H2 & H3 & H4 & H5 & H6 & H7 & H8).
    unfold Run.consistent. simpl. rewrite Ht.
    consistency; destruct (H5 s) as (? & ? & ?); auto.
  - (* finish *)
    rewrite finish_result. now apply switched_consistent.
  - (* skip *)
    rewrite skip_result. now apply (switched_consistent _ None).
  - (* reset *)
    rewrite reset_result. now apply (switched_consistent _ None).
  - (* addMinutes *)
    pose proof (addMinutes_effect delta w) as Hadd. cbv zeta in Hadd.
    destruct Hadd as (Ht & _ & Htarget & Hmode & Hrun & Hlm & Hia & Hcfg).
    destruct Hw as (H1 & H2 & H3 & H4 & H5 & H6 & H7 & H8).
    remember (TimerEngine.addMinutes delta w) as w' eqn:Hw'. clear Hw'.
    unfold Run.consistent. rewrite Hlm, Hrun, Hmode, Htarget, Ht, Hia, Hcfg.
    clear Htarget Ht.
    destruct (TimerEngine.isRunning (TimerEngine.state w)) eqn:Hr;
      destruct (TimerEngine.targetTime w) eqn:Htg; simpl;
      repeat split; intros; try congruence; try lia; eauto;
      try (exfalso; apply H1; congruence); try (apply H1; congruence);
      match goal with
      | Hs : currentSession _ = Some ?s |- _ => destruct (H5 s Hs) as (? & ? & ?); auto
      end.
  - (* setTask *)
    destruct Hw as (H1 & H2 & H3 & H4 & H5 & H6 & H7 & H8).
    unfold Run.consistent, TimerEngine.setTask. cbn -[updateTask]. unfold updateTask.
    destruct (currentSession (TimerEngine.logManager w)) as [s|] eqn:Hs.
    + destruct (H5 s eq_refl) as (Hm & He & Hp). simpl. consistency.
    + rewrite Hs. consistency.
  - (* focus input *)
    unfold GentlePomoView.focusInputChange. destruct val as [n|]; [|exact Hw].
    destruct (Z.gtb_spec n 0) as [Hn|Hn]; [|exact Hw].
    destruct Hw as (H1 & H2 & H3 & H4 & H5 & H6 & H7 & H8).
    unfold Run.consistent, TimerEngine.updateDuration. simpl.
    destruct (TimerEngine.mode_eqb _ _); simpl;
      consistency; try (apply H1; assumption); try (destruct (H5 s) as (? & ? & ?); auto).
  - (* break input *)
    unfold GentlePomoView.breakInputChange. destruct val as [n|]; [|exact Hw].
    destruct (Z.gtb_spec n 0) as [Hn|Hn]; [|exact Hw].
    destruct Hw as (H1 & H2 & H3 & H4 & H5 & H6 & H7 & H8).
    unfold Run.consistent, TimerEngine.updateDuration. simpl.
    destruct (TimerEngine.mode_eqb _ _); simpl;
      consistency; try (apply H1; assumption); try (destruct (H5 s) as (? & ? & ?); auto).
Qed.

End Consistency.

Section Runs.

Variable normalizePath : string -> string.
Variable tz : Moment.t -> Z.

Lemma run_consistent (events : list Run.Event) (w : TimerEngine.GentlePomoPlugin) :
  Run.consistent w -> Run.consistent (Run.run normalizePath tz events w).
Proof.
  revert w. induction events as [|e events IH]; intros w Hw; [exact Hw|].
  rewrite run_cons. apply IH. now apply step_consistent.
Qed.

Lemma revised_reset_consistent (tNow : Z) (w : TimerEngine.GentlePomoPlugin) :
  Run.consistent w -> Run.consistent (Revised.reset tNow w).
Proof.
  intros (H1 & H2 & H3 & H4 & H5 & H6 & H7 & H8).
  pose proof (minutes_total (TimerEngine.mode (TimerEngine.state w)) _ H7 H8) as Htot.
  unfold Run.consistent, Revised.reset. cbv zeta. simpl.
  destruct (TimerEngine.isRunning (TimerEngine.state w)) eqn:Hr; simpl;
    repeat split; intros; try congruence; try lia; eauto;
    match goal with
    | Hs : currentSession _ = Some ?s |- _ => destruct (H5 s Hs) as (? & ? & ?); auto
    end.
Qed.

(** X8.  From a freshly loaded plugin with durations of at least one minute, every
    sequence of operations, timer ticks and settings changes keeps the engine
    and the recorder in step: the timer is running exactly when it has a
    wall-clock target and a live interval; a pause is pending only while a
    record exists and the timer is not running, and then it always is; the
    record in progress has the timer's mode and no end time; the total
    duration never drops below one minute.  The revised reset keeps all of
    this too. *)
Theorem runs_stay_consistent
    (cfg : TimerEngine.GentlePomoSettings) (v : Vault.t) (events : list Run.Event)
    (tNow : Z) :
  1 <= TimerEngine.focusMinutes cfg ->
  1 <= TimerEngine.breakMinutes cfg ->
  Run.consistent (Run.run normalizePath tz events (TimerEngine.init cfg v)) /\
  Run.consistent
    (Revised.reset tNow (Run.run normalizePath tz events (TimerEngine.init cfg v))).
Proof.
  intros Hf Hb.
  assert (H : Run.consistent (Run.run normalizePath tz events (TimerEngine.init cfg v))).
  { apply run_consistent. now apply init_consistent. }
  split; [exact H|]. now apply revised_reset_consistent.
Qed.

End Runs.

Lemma runs_stay_consistent_afternoon :
  Run.consistent
    (Run.run Scenario.normalizePath Moment.UTC Days.afternoon
       (TimerEngine.init Scenario.settings Vault.empty)).
Proof.
  refine (proj1 (runs_stay_consistent Scenario.normalizePath Moment.UTC Scenario.settings
                   Vault.empty Days.afternoon 0 _ _)); vm_compute; discriminate.
Defined.

Lemma nothing_is_written_afternoon :
  TimerEngine.vault
    (Run.run Scenario.normalizePath Moment.UTC Days.afternoon
       (TimerEngine.init TimerEngine.DEFAULT_SETTINGS Vault.empty)) = Vault.empty.
Proof.
  exact (nothing_is_written_without_a_log_folder Scenario.normalizePath Moment.UTC
           Days.afternoon (TimerEngine.init TimerEngine.DEFAULT_SETTINGS Vault.empty)
           eq_refl).
Defined.

(** The afternoon as a whole: the focus session leaves one line; the rest
    that follows is skipped before it was started and leaves none. *)
Lemma afternoon_log :
  Vault.files
    (TimerEngine.vault
       (Run.run Scenario.normalizePath Moment.UTC Days.afternoon
          (TimerEngine.init Scenario.settings Vault.empty)))
    !! "Pomodoro_logs/2025-12-21-gentle-pomodoro-log.md" =
  Some ("- 🍅 Focus | Task:: [[Path/To/File.md|Task Name #tag]] | Start:: 2025-12-21 14:00:00 | End:: 2025-12-21 14:25:00 | Scheduled:: 1500 | Pauses:: ["
        +:+ JS.dquote +:+ "2025-12-21 14:10:00 - 2025-12-21 14:12:00" +:+ JS.dquote +:+
        "] | Total:: 1380 | Status:: finished").
Proof. vm_compute. reflexivity. Qed.

(** ** Auto-start after Finish *)

(** X9.  When the mode that follows is set to start by itself, Finish leaves the
    timer running in that mode with a fresh wall-clock target.  Because
    endSession is not awaited, the startSession of the auto-start comes
    before the recorder is cleared: if a session was being ended, the call is
    taken for a resume and no record is open afterwards, so ending the
    auto-started session later writes nothing; only if no session was in
    progress does the auto-start open a record. *)
Theorem autostart_opens_a_record_only_when_none_was_ending
    (normalizePath : string -> string) (tz : Moment.t -> Z)
    (tPause tEnd tLog : Moment.t) (tNow : Z) (tPause' tEnd' : Moment.t)
    (w : TimerEngine.GentlePomoPlugin) :
  Run.autoStartNext (TimerEngine.mode (TimerEngine.state w)) (TimerEngine.settings w) = true ->
  let next := TimerEngine.otherMode (TimerEngine.mode (TimerEngine.state w)) in
  let minutes := TimerEngine.minutesFor next (TimerEngine.settings w) in
  let total := minutes * 60 * 1000 in
  let w' := TimerEngine.finish normalizePath tz tPause tEnd tLog tNow w in
  TimerEngine.state w' = TimerEngine.mkState next true total total /\
  TimerEngine.targetTime w' = Some (tNow + total) /\
  (forall s, currentSession (TimerEngine.logManager w) = Some s ->
     TimerEngine.logManager w' = mkLog None None /\
     TimerEngine.vault (TimerEngine.skip normalizePath tz tPause' tEnd' w') =
       TimerEngine.vault w' /\
     TimerEngine.vault (TimerEngine.finish normalizePath tz tPause' tEnd' tLog tNow w') =
       TimerEngine.vault w') /\
  (currentSession (TimerEngine.logManager w) = None ->
     TimerEngine.logManager w' =
       mkLog
         (Some (mkSession next (JS.or_default (TimerEngine.currentTaskName w) "No Task")
                  (TimerEngine.currentTaskPath w) minutes tLog None [] cancelled))
         (currentPauseStart (TimerEngine.logManager w))).
Proof.
  intros Hauto next minutes total w'.
  assert (Hw' : w' = _) by apply finish_result. cbv zeta in Hw'.
  rewrite Hauto in Hw'. simpl in Hw'.
  split; [now rewrite Hw'|]. split; [now rewrite Hw'|]. split.
  - intros s Hs. rewrite Hs in Hw'.
    assert (Hlm : TimerEngine.logManager w' = mkLog None None) by now rewrite Hw'.
    split; [exact Hlm|]. split.
    + rewrite skip_result, Hlm.
      now rewrite (endSession_idle normalizePath tz _ tPause' tEnd' _ (mkLog None None) _ eq_refl).
    + rewrite finish_result. cbv zeta. rewrite Hlm.
      now rewrite (endSession_idle normalizePath tz _ tPause' tEnd' _ (mkLog None None) _ eq_refl).
  - intros Hs. rewrite Hs in Hw'. rewrite Hw'. simpl.
    unfold startSession. rewrite Hs. reflexivity.
Qed.

Lemma autostart_scenario :
  TimerEngine.logManager
    (TimerEngine.finish Scenario.normalizePath Moment.UTC
       Scenario.t_14_25 Scenario.t_14_25 Scenario.t_14_25 Scenario.t_14_25
       Scenario.running_autoStartBreak) = mkLog None None /\
  TimerEngine.isRunning
    (TimerEngine.state
       (TimerEngine.finish Scenario.normalizePath Moment.UTC
          Scenario.t_14_25 Scenario.t_14_25 Scenario.t_14_25 Scenario.t_14_25
          Scenario.running_autoStartBreak)) = true.
Proof.
  pose proof (autostart_opens_a_record_only_when_none_was_ending
                Scenario.normalizePath Moment.UTC
                Scenario.t_14_25 Scenario.t_14_25 Scenario.t_14_25 Scenario.t_14_25
                Scenario.t_14_25 Scenario.t_14_25 Scenario.running_autoStartBreak eq_refl)
    as (Hstate & _ & Hsome & _).
  split.
  - exact (proj1 (Hsome _ eq_refl)).
  - rewrite Hstate. reflexivity.
Defined.

(** ** The countdown and the wall clock *)

Lemma tick_running (now target : Z) (w : TimerEngine.GentlePomoPlugin) :
  TimerEngine.isRunning (TimerEngine.state w) = true ->
  TimerEngine.targetTime w = Some target ->
  TimerEngine.tick now w =
  TimerEngine.emit
    (TimerEngine.set_state
       (TimerEngine.mkState (TimerEngine.mode (TimerEngine.state w)) true (target - now)
          (TimerEngine.totalMs (TimerEngine.state w))) w).
Proof. intros Hr Ht. unfold TimerEngine.tick. now rewrite Ht, Hr. Qed.

Lemma ticks_running (nows : list Z) (target : Z) (w : TimerEngine.GentlePomoPlugin) :
  TimerEngine.isRunning (TimerEngine.state w) = true ->
  TimerEngine.targetTime w = Some target ->
  let w' := Run.ticks nows w in
  TimerEngine.isRunning (TimerEngine.state w') = true /\
  TimerEngine.targetTime w' = Some target /\
  TimerEngine.mode (TimerEngine.state w') = TimerEngine.mode (TimerEngine.state w) /\
  TimerEngine.totalMs (TimerEngine.state w') = TimerEngine.totalMs (TimerEngine.state w) /\
  TimerEngine.logManager w' = TimerEngine.logManager w /\
  TimerEngine.vault w' = TimerEngine.vault w /\
  TimerEngine.settings w' = TimerEngine.settings w.
Proof.
  revert w. induction nows as [|n nows IH]; intros w Hr Ht; [now repeat split|].
  cbv zeta. unfold Run.ticks. simpl. fold (Run.ticks nows).
  rewrite (tick_running n target w Hr Ht).
  specialize (IH (TimerEngine.emit
                    (TimerEngine.set_state
                       (TimerEngine.mkState (TimerEngine.mode (TimerEngine.state w)) true
                          (target - n) (TimerEngine.totalMs (TimerEngine.state w))) w))
                eq_refl Ht).
  exact IH.
Qed.

(** X12.  While the timer runs, the remaining time after a tick is the wall-clock
    target minus the clock read of that tick, however many ticks came before
    and whenever they fired: missed or late ticks leave no drift.  Ticks touch
    neither the target nor the recorder nor the vault, and while the timer is
    not running they do nothing at all. *)
Theorem ticks_leave_no_drift
    (nows : list Z) (now target : Z) (w : TimerEngine.GentlePomoPlugin) :
  (TimerEngine.isRunning (TimerEngine.state w) = true ->
   TimerEngine.targetTime w = Some target ->
   let w' := TimerEngine.tick now (Run.ticks nows w) in
   TimerEngine.remainingMs (TimerEngine.state w') = target - now /\
   TimerEngine.state w' = TimerEngine.state (TimerEngine.tick now w) /\
   TimerEngine.targetTime w' = Some target /\
   TimerEngine.logManager w' = TimerEngine.logManager w /\
   TimerEngine.vault w' = TimerEngine.vault w) /\
  (TimerEngine.isRunning (TimerEngine.state w) = false ->
   TimerEngine.tick now (Run.ticks nows w) = w).
Proof.
  split.
  - intros Hr Ht w'.
    destruct (ticks_running nows target w Hr Ht) as (Hr' & Ht' & Hm & Htot & Hlm & Hv & _).
    unfold w'. rewrite (tick_running now target _ Hr' Ht'), (tick_running now target w Hr Ht).
    simpl. rewrite Hm, Htot. repeat split; assumption.
  - intros Hr.
    assert (Hticks : forall l, Run.ticks l w = w).
    { induction l as [|n l IHl]; [reflexivity|].
      unfold Run.ticks. simpl. fold (Run.ticks l).
      replace (TimerEngine.tick n w) with w; [exact IHl|].
      unfold TimerEngine.tick. destruct (TimerEngine.targetTime w); [|reflexivity].
      now rewrite Hr. }
    rewrite Hticks. unfold TimerEngine.tick.
    destruct (TimerEngine.targetTime w); [|reflexivity]. now rewrite Hr.
Qed.

Lemma ticks_scenario :
  TimerEngine.remainingMs
    (TimerEngine.state
       (TimerEngine.tick Scenario.t_14_10
          (Run.ticks [Scenario.t_14_00 + 50; Scenario.t_14_00 + 7000] Scenario.running))) =
  900000.
Proof.
  exact (proj1 (proj1 (ticks_leave_no_drift
                         [Scenario.t_14_00 + 50; Scenario.t_14_00 + 7000]
                         Scenario.t_14_10 (Scenario.t_14_00 + 1500000) Scenario.running)
                  eq_refl eq_refl)).
Defined.

(** X13.  Adjusting the duration of a running timer moves remaining time and target
    together, so the distance between them, the instant of the last tick, is
    unchanged: a tick at that same instant shows exactly the adjusted
    remaining time, and a tick at any later instant shows it less the time
    that has passed. *)
Theorem addMinutes_does_not_make_the_next_tick_jump
    (delta now later target : Z) (w : TimerEngine.GentlePomoPlugin) :
  TimerEngine.isRunning (TimerEngine.state w) = true ->
  TimerEngine.targetTime w = Some target ->
  TimerEngine.remainingMs (TimerEngine.state w) = target - now ->
  let w' := TimerEngine.addMinutes delta w in
  TimerEngine.targetTime w' = Some (now + TimerEngine.remainingMs (TimerEngine.state w')) /\
  TimerEngine.state (TimerEngine.tick now w') = TimerEngine.state w' /\
  TimerEngine.remainingMs (TimerEngine.state (TimerEngine.tick later w')) =
    TimerEngine.remainingMs (TimerEngine.state w') - (later - now).
Proof.
  intros Hr Ht Hsync w'.
  pose proof (addMinutes_effect delta w) as Hadd. cbv zeta in Hadd.
  destruct Hadd as (_ & _ & Htarget & _ & Hrun & _).
  change (TimerEngine.addMinutes delta w) with w' in Htarget, Hrun. clearbody w'.
  rewrite Hr, Ht in Htarget. cbn [option_map] in Htarget. rewrite Hr in Hrun.
  assert (Ht' : TimerEngine.targetTime w' =
                Some (now + TimerEngine.remainingMs (TimerEngine.state w'))).
  { rewrite Htarget. f_equal. lia. }
  split; [exact Ht'|].
  rewrite !(tick_running _ _ w' Hrun Ht'). simpl. split.
  - destruct (TimerEngine.state w') as [m r rem tot]. simpl in *. subst r.
    f_equal. lia.
  - lia.
Qed.

Lemma addMinutes_tick_scenario :
  TimerEngine.remainingMs
    (TimerEngine.state
       (TimerEngine.tick Scenario.t_14_10
          (TimerEngine.addMinutes 5 (TimerEngine.tick Scenario.t_14_10 Scenario.running)))) =
  1200000.
Proof.
  pose proof (addMinutes_does_not_make_the_next_tick_jump 5 Scenario.t_14_10
                Scenario.t_14_10 (Scenario.t_14_00 + 1500000)
                (TimerEngine.tick Scenario.t_14_10 Scenario.running)
                eq_refl eq_refl eq_refl) as (_ & Hsame & _).
  rewrite Hsame. reflexivity.
Defined.

(** X14.  Pausing a running timer and starting it again freezes the countdown in
    between: the remaining time after the resume is the remaining time at the
    pause, whatever the length of the pause, the new target is the instant of
    the resume plus that time, and a record in progress gains exactly the
    interval from the pause to the resume. *)
Theorem pause_freezes_the_countdown
    (tPause tResume : Moment.t) (tNow later : Z) (w : TimerEngine.GentlePomoPlugin) :
  TimerEngine.isRunning (TimerEngine.state w) = true ->
  let w' := TimerEngine.start tResume tNow (TimerEngine.pause tPause w) in
  TimerEngine.state w' = TimerEngine.state w /\
  TimerEngine.targetTime w' = Some (tNow + TimerEngine.remainingMs (TimerEngine.state w)) /\
  TimerEngine.remainingMs (TimerEngine.state (TimerEngine.tick later w')) =
    TimerEngine.remainingMs (TimerEngine.state w) - (later - tNow) /\
  (forall s, currentSession (TimerEngine.logManager w) = Some s ->
     TimerEngine.logManager w' = mkLog (Some (push_pause (mkPause tPause tResume) s)) None) /\
  TimerEngine.vault w' = TimerEngine.vault w.
Proof.
  intros Hr w'. unfold w', TimerEngine.pause. rewrite Hr. simpl.
  unfold TimerEngine.start. simpl.
  destruct w as [cfg [m r rem tot] ia tgt name path em lm v]. simpl in *. subst r.
  split; [reflexivity|]. split; [reflexivity|]. split.
  - unfold TimerEngine.tick. simpl. lia.
  - split; [|reflexivity]. intros s Hs. unfold pauseSession, startSession, resumeSession.
    rewrite Hs. simpl. reflexivity.
Qed.

Lemma pause_scenario :
  TimerEngine.remainingMs
    (TimerEngine.state
       (TimerEngine.start Scenario.t_14_12 Scenario.t_14_12
          (TimerEngine.pause Scenario.t_14_10
             (TimerEngine.tick Scenario.t_14_10 Scenario.running)))) = 900000.
Proof.
  rewrite (proj1 (pause_freezes_the_countdown Scenario.t_14_10 Scenario.t_14_12
                    Scenario.t_14_12 Scenario.t_14_12
                    (TimerEngine.tick Scenario.t_14_10 Scenario.running) eq_refl)).
  reflexivity.
Defined.

(** ** The view *)

(** X15.  The minus button cannot push the timer to zero or into overtime: its
    handler refuses to act at five minutes or less, which is exactly when the
    listener shows the button disabled, and otherwise takes five minutes off,
    leaving remaining time positive (and exactly five minutes lower whenever it
    did not exceed the total) and the total at one minute or more. *)
Theorem minus_button_keeps_time_positive (w : TimerEngine.GentlePomoPlugin) :
  let st := TimerEngine.state w in
  let st' := TimerEngine.state (GentlePomoView.minusClick w) in
  (0 < TimerEngine.remainingMs st -> 0 < TimerEngine.remainingMs st') /\
  (GentlePomoView.minusDisabled st = true <-> TimerEngine.remainingMs st <= 300000) /\
  (GentlePomoView.minusDisabled st = true -> GentlePomoView.minusClick w = w) /\
  (GentlePomoView.minusDisabled st = false ->
     60000 <= TimerEngine.totalMs st' /\
     TimerEngine.totalMs st' = Z.max (TimerEngine.totalMs st - 300000) 60000 /\
     (TimerEngine.remainingMs st <= TimerEngine.totalMs st ->
      TimerEngine.remainingMs st' = TimerEngine.remainingMs st - 300000)).
Proof.
  intros st st'. unfold st', GentlePomoView.minusClick, GentlePomoView.minusDisabled.
  fold st. rewrite Z.gtb_ltb.
  destruct (Z.ltb_spec (5 * 60 * 1000) (TimerEngine.remainingMs st)) as [Hgt|Hle];
    destruct (Z.leb_spec (TimerEngine.remainingMs st) (5 * 60 * 1000)) as [Hle'|Hgt'];
    try lia.
  - pose proof (addMinutes_effect (-5) w) as Hadd. cbv zeta in Hadd.
    destruct Hadd as (Ht & Hrem & _). fold st in Ht, Hrem.
    repeat split; intros; try discriminate; try lia.
  - repeat split; intros; try discriminate; try lia; auto.
Qed.

Lemma ceilSeconds_bounds (a : Z) :
  1000 * (GentlePomoView.ceilSeconds a - 1) < a <= 1000 * GentlePomoView.ceilSeconds a.
Proof.
  unfold GentlePomoView.ceilSeconds.
  pose proof (Z.div_mod (- a) 1000 ltac:(lia)) as Hdm.
  pose proof (Z.mod_pos_bound (- a) 1000 ltac:(lia)) as Hb.
  lia.
Qed.

(** X16.  The time label rounds the remaining time up to whole seconds: the
    number of seconds it shows is the least one that covers the remaining
    milliseconds, so it reads zero only when nothing remains; it is written as
    minutes and seconds with the seconds between 00 and 59, with a plus sign in
    front exactly in overtime.  The total label is empty unless the timer is in
    overtime, and then shows the scheduled total plus the overtime, in whole
    seconds rounded down. *)
Theorem time_label_rounds_up (st : TimerEngine.TimerState) :
  let rem := TimerEngine.remainingMs st in
  let sec := GentlePomoView.ceilSeconds (Z.abs rem) in
  1000 * (sec - 1) < Z.abs rem <= 1000 * sec /\
  (sec = 0 <-> rem = 0) /\
  (exists m s,
     0 <= m /\ 0 <= s < 60 /\ 60 * m + s = sec /\
     GentlePomoView.timeText st =
       (if (rem <? 0)%Z then "+" else "") +:+
       GentlePomoView.padStart2 (JS.of_number m) +:+ ":" +:+
       GentlePomoView.padStart2 (JS.of_number s)) /\
  (0 <= rem -> GentlePomoView.totalTimeText st = "") /\
  (rem < 0 -> 0 <= TimerEngine.totalMs st ->
   exists tM tS,
     0 <= tS < 60 /\
     60 * tM + tS = (TimerEngine.totalMs st + (- rem)) / 1000 /\
     GentlePomoView.totalTimeText st =
       "Total: " +:+ JS.of_number tM +:+ ":" +:+
       GentlePomoView.padStart2 (JS.of_number tS)).
Proof.
  intros rem sec.
  pose proof (ceilSeconds_bounds (Z.abs rem)) as Hb. fold sec in Hb.
  assert (Hsec : 0 <= sec) by lia.
  split; [exact Hb|]. split; [lia|]. split.
  - exists (sec / 60), (sec mod 60).
    pose proof (Z.div_mod sec 60 ltac:(lia)) as Hdm.
    pose proof (Z.mod_pos_bound sec 60 ltac:(lia)) as Hm.
    assert (0 <= sec / 60) by (apply Z.div_pos; lia).
    repeat split; try lia.
    unfold GentlePomoView.timeText, GentlePomoView.isOvertime. fold rem. fold sec.
    rewrite (Z.rem_mod_nonneg sec 60) by lia.
    destruct (rem <? 0)%Z; reflexivity.
  - split.
    + intros Hpos. unfold GentlePomoView.totalTimeText, GentlePomoView.isOvertime.
      fold rem. destruct (Z.ltb_spec rem 0); [lia|reflexivity].
    + intros Hneg Htot.
      set (tSec := (TimerEngine.totalMs st + (- rem)) / 1000).
      assert (0 <= tSec) by (apply Z.div_pos; lia).
      exists (tSec / 60), (tSec mod 60).
      pose proof (Z.div_mod tSec 60 ltac:(lia)) as Hdm.
      pose proof (Z.mod_pos_bound tSec 60 ltac:(lia)) as Hm.
      repeat split; try lia.
      unfold GentlePomoView.totalTimeText, GentlePomoView.isOvertime. fold rem.
      destruct (Z.ltb_spec rem 0); [|lia].
      replace (Z.abs rem) with (- rem) by lia. fold tSec.
      rewrite (Z.rem_mod_nonneg tSec 60) by lia. reflexivity.
Qed.

Lemma time_label_scenario :
  GentlePomoView.timeText (TimerEngine.mkState focus true (-5000) 1500000) = "+00:05" /\
  GentlePomoView.totalTimeText (TimerEngine.mkState focus true (-5000) 1500000) =
    "Total: 25:05" /\
  GentlePomoView.timeText (TimerEngine.mkState focus true 1 1500000) = "00:01" /\
  GentlePomoView.timeText (TimerEngine.mkState focus false 1500000 1500000) = "25:00".
Proof. repeat split. Qed.

(** ** What the log depends on *)

Section LogView.

Variable normalizePath : string -> string.
Variable tz : Moment.t -> Z.

Lemma step_log_view (w1 w2 : TimerEngine.GentlePomoPlugin) (e : Run.Event) :
  Run.log_view w1 = Run.log_view w2 ->
  Run.log_view (Run.step normalizePath tz w1 e) =
  Run.log_view (Run.step normalizePath tz w2 e).
Proof.
  intros H.
  destruct w1 as [cfg1 [m1 r1 rem1 tot1] ia1 tgt1 name1 path1 em1 lm1 v1].
  destruct w2 as [cfg2 [m2 r2 rem2 tot2] ia2 tgt2 name2 path2 em2 lm2 v2].
  unfold Run.log_view in H. simpl in H. injection H as -> -> -> -> -> -> ->.
  destruct e as [tLog tNow | tLog | now | tPause tEnd tLog tNow | tPause tEnd
                | tPause tEnd | delta | name path | val | val]; simpl.
  - unfold TimerEngine.start. simpl. destruct r2; reflexivity.
  - unfold TimerEngine.pause. simpl. destruct r2; reflexivity.
  - unfold TimerEngine.tick. simpl.
    destruct tgt1, tgt2, r2; reflexivity.
  - rewrite !finish_result. reflexivity.
  - rewrite !skip_result. reflexivity.
  - rewrite !reset_result. reflexivity.
  - unfold TimerEngine.addMinutes. cbv zeta. simpl.
    destruct tgt1, tgt2, r2; reflexivity.
  - reflexivity.
  - unfold GentlePomoView.focusInputChange. destruct val as [n|]; [|reflexivity].
    destruct (n >? 0)%Z; [|reflexivity]. unfold TimerEngine.updateDuration. simpl.
    destruct (TimerEngine.mode_eqb m2 focus); reflexivity.
  - unfold GentlePomoView.breakInputChange. destruct val as [n|]; [|reflexivity].
    destruct (n >? 0)%Z; [|reflexivity]. unfold TimerEngine.updateDuration. simpl.
    destruct (TimerEngine.mode_eqb m2 break); reflexivity.
Qed.

Lemma countdown_only_log_view (w : TimerEngine.GentlePomoPlugin) (e : Run.Event) :
  Run.countdown_only e = true ->
  Run.log_view (Run.step normalizePath tz w e) = Run.log_view w.
Proof.
  destruct w as [cfg [m r rem tot] ia tgt name path em lm v].
  destruct e; intros He; try discriminate He; simpl.
  - unfold TimerEngine.tick. simpl. destruct tgt, r; reflexivity.
  - unfold TimerEngine.addMinutes. cbv zeta. simpl. destruct tgt, r; reflexivity.
Qed.

Lemma run_log_view (events : list Run.Event) (w1 w2 : TimerEngine.GentlePomoPlugin) :
  Run.log_view w1 = Run.log_view w2 ->
  Run.log_view (Run.run normalizePath tz events w1) =
  Run.log_view
    (Run.run normalizePath tz (List.filter (fun e => negb (Run.countdown_only e)) events) w2).
Proof.
  revert w1 w2. induction events as [|e events IH]; intros w1 w2 H; [exact H|].
  rewrite run_cons.
  assert (Hfilter :
    List.filter (fun e => negb (Run.countdown_only e)) (e :: events) =
    if negb (Run.countdown_only e)
    then e :: List.filter (fun e => negb (Run.countdown_only e)) events
    else List.filter (fun e => negb (Run.countdown_only e)) events).
  { reflexivity. }
  rewrite Hfilter.
  destruct (Run.countdown_only e) eqn:He; cbn [negb].
  - apply IH. now rewrite (countdown_only_log_view w1 e He).
  - rewrite run_cons. apply IH. now apply step_log_view.
Qed.

(** X10.  What is logged does not depend on the countdown: dropping every timer
    tick and every duration adjustment from a run leaves the recorder, the
    vault, the mode, the running flag, the task and the settings exactly as
    they were.  The lines and their Scheduled and Total fields are decided by
    the instants of Start, Pause, Finish, Skip and Reset alone, overtime and
    added minutes included. *)
Theorem log_is_independent_of_the_countdown
    (events : list Run.Event) (w : TimerEngine.GentlePomoPlugin) :
  let kept := List.filter (fun e => negb (Run.countdown_only e)) events in
  let w1 := Run.run normalizePath tz events w in
  let w2 := Run.run normalizePath tz kept w in
  TimerEngine.logManager w1 = TimerEngine.logManager w2 /\
  TimerEngine.vault w1 = TimerEngine.vault w2 /\
  TimerEngine.mode (TimerEngine.state w1) = TimerEngine.mode (TimerEngine.state w2) /\
  TimerEngine.isRunning (TimerEngine.state w1) = TimerEngine.isRunning (TimerEngine.state w2) /\
  TimerEngine.currentTaskName w1 = TimerEngine.currentTaskName w2 /\
  TimerEngine.currentTaskPath w1 = TimerEngine.currentTaskPath w2 /\
  TimerEngine.settings w1 = TimerEngine.settings w2.
Proof.
  intros kept w1 w2.
  pose proof (run_log_view events w w eq_refl) as H.
  fold kept in H. fold w1 in H. fold w2 in H.
  unfold Run.log_view in H. injection H as -> -> -> -> -> -> ->.
  repeat split.
Qed.

End LogView.

Lemma afternoon_without_countdown_events :
  List.filter (fun e => negb (Run.countdown_only e)) Days.afternoon = Days.afternoon_bare /\
  TimerEngine.vault
    (Run.run Scenario.normalizePath Moment.UTC Days.afternoon
       (TimerEngine.init Scenario.settings Vault.empty)) =
  TimerEngine.vault
    (Run.run Scenario.normalizePath Moment.UTC Days.afternoon_bare
       (TimerEngine.init Scenario.settings Vault.empty)).
Proof.
  split; [reflexivity|].
  exact (proj1 (proj2 (log_is_independent_of_the_countdown Scenario.normalizePath
                         Moment.UTC Days.afternoon
                         (TimerEngine.init Scenario.settings Vault.empty)))).
Defined.

(** ** A session from Start to its line *)

Section WholeSession.

Variable normalizePath : string -> string.
Variable tz : Moment.t -> Z.

Lemma run_app (e1 e2 : list Run.Event) (w : TimerEngine.GentlePomoPlugin) :
  Run.run normalizePath tz (e1 ++ e2) w =
  Run.run normalizePath tz e2 (Run.run normalizePath tz e1 w).
Proof. unfold Run.run. apply fold_left_app. Qed.

Lemma endSession_on_record (folder : string) (tPause tEnd : Moment.t) (st : Status)
    (s : SessionLog) (v : Vault.t) :
  endSession normalizePath tz folder tPause tEnd st (mkLog (Some s) None) v =
  (mkLog None None,
   Returned (outcome_vault (writeLog normalizePath tz folder (set_end tEnd st s) v))).
Proof.
  exact (endSession_active normalizePath tz folder tPause tEnd st
           (mkLog (Some s) None) s v eq_refl).
Qed.

Lemma cycle_events_running (cs : list (Moment.t * Moment.t * Z))
    (w : TimerEngine.GentlePomoPlugin) (s : SessionLog) :
  TimerEngine.isRunning (TimerEngine.state w) = true ->
  TimerEngine.logManager w = mkLog (Some s) None ->
  let w' := Run.run normalizePath tz (Run.cycle_events cs) w in
  TimerEngine.isRunning (TimerEngine.state w') = true /\
  TimerEngine.logManager w' =
    mkLog (Some (mkSession (LogManager.mode s) (taskName s) (taskPath s)
                   (scheduledDurationMinutes s) (startTime s) (endTime s)
                   (pauses s ++ map (fun c => Calls.interval (fst c)) cs) (status s)))
      None /\
  Run.log_view w' =
    (TimerEngine.settings w, TimerEngine.mode (TimerEngine.state w), true,
     TimerEngine.currentTaskName w, TimerEngine.currentTaskPath w,
     TimerEngine.logManager w', TimerEngine.vault w).
Proof.
  revert w s. induction cs as [|[[p r] n] cs IH]; intros w s Hr Hlm.
  - cbv zeta. simpl. rewrite app_nil_r. rewrite Hlm.
    destruct s. simpl. unfold Run.log_view. rewrite Hr, Hlm. repeat split.
  - cbv zeta.
    change (Run.cycle_events ((p, r, n) :: cs))
      with (Run.Pause p :: Run.Start r n :: Run.cycle_events cs).
    rewrite !run_cons.
    set (w1 := Run.step normalizePath tz (Run.step normalizePath tz w (Run.Pause p))
                 (Run.Start r n)).
    assert (H1 : TimerEngine.isRunning (TimerEngine.state w1) = true /\
                 TimerEngine.logManager w1 =
                   mkLog (Some (push_pause (mkPause p r) s)) None /\
                 TimerEngine.settings w1 = TimerEngine.settings w /\
                 TimerEngine.mode (TimerEngine.state w1) =
                   TimerEngine.mode (TimerEngine.state w) /\
                 TimerEngine.currentTaskName w1 = TimerEngine.currentTaskName w /\
                 TimerEngine.currentTaskPath w1 = TimerEngine.currentTaskPath w /\
                 TimerEngine.vault w1 = TimerEngine.vault w).
    { unfold w1. simpl. unfold TimerEngine.pause. rewrite Hr. simpl.
      unfold TimerEngine.start. simpl. rewrite Hlm. simpl. repeat split. }
    destruct H1 as (Hr1 & Hlm1 & Hcfg1 & Hm1 & Hn1 & Hp1 & Hv1).
    destruct (IH w1 _ Hr1 Hlm1) as (Hr' & Hlm' & Hview').
    split; [exact Hr'|]. split.
    + rewrite Hlm'. unfold push_pause. simpl. rewrite <- app_assoc. reflexivity.
    + rewrite Hview', Hcfg1, Hm1, Hn1, Hp1, Hv1. reflexivity.
Qed.

(** X4.  A session as the user runs it: Start on a stopped timer with no record
    open, any number of Pause and resume clicks, then Finish or Skip.  The line
    that is written is the line of one record with the mode, task and
    configured minutes of the moment of Start, the instant of Start as its
    start time, exactly the pause intervals of the clicks in their order, the
    instant of the ending click as its end time, and status finished for
    Finish and cancelled or finished for Skip as the mode has it; the recorder
    is empty afterwards, and after Finish the timer is in the other mode,
    running exactly when that mode is set to start by itself. *)
Theorem a_session_is_logged_as_it_ran
    (w : TimerEngine.GentlePomoPlugin) (t0 : Moment.t) (n0 : Z)
    (cs : list (Moment.t * Moment.t * Z))
    (tPause tEnd tLog : Moment.t) (tNow : Z) :
  TimerEngine.isRunning (TimerEngine.state w) = false ->
  TimerEngine.logManager w = mkLog None None ->
  let m := TimerEngine.mode (TimerEngine.state w) in
  let record (st : Status) :=
    mkSession m (JS.or_default (TimerEngine.currentTaskName w) "No Task")
      (TimerEngine.currentTaskPath w) (TimerEngine.minutesFor m (TimerEngine.settings w))
      t0 (Some tEnd) (map (fun c => Calls.interval (fst c)) cs) st in
  let folder := TimerEngine.logFolderPath (TimerEngine.settings w) in
  let session := Run.Start t0 n0 :: Run.cycle_events cs in
  let finished_run :=
    Run.run normalizePath tz (session ++ [Run.Finish tPause tEnd tLog tNow]) w in
  let skipped_run :=
    Run.run normalizePath tz (session ++ [Run.Skip tPause tEnd]) w in
  TimerEngine.vault finished_run =
    outcome_vault (writeLog normalizePath tz folder (record finished) (TimerEngine.vault w)) /\
  TimerEngine.vault skipped_run =
    outcome_vault
      (writeLog normalizePath tz folder (record (TimerEngine.skipStatus m))
         (TimerEngine.vault w)) /\
  TimerEngine.logManager finished_run = mkLog None None /\
  TimerEngine.logManager skipped_run = mkLog None None /\
  TimerEngine.isRunning (TimerEngine.state finished_run) =
    Run.autoStartNext m (TimerEngine.settings w) /\
  TimerEngine.mode (TimerEngine.state finished_run) = TimerEngine.otherMode m.
Proof.
  intros Hr Hlm m record folder session finished_run skipped_run.
  set (w0 := Run.step normalizePath tz w (Run.Start t0 n0)).
  set (s0 := mkSession m (JS.or_default (TimerEngine.currentTaskName w) "No Task")
               (TimerEngine.currentTaskPath w)
               (TimerEngine.minutesFor m (TimerEngine.settings w)) t0 None [] cancelled).
  assert (H0 : TimerEngine.isRunning (TimerEngine.state w0) = true /\
               TimerEngine.logManager w0 = mkLog (Some s0) None /\
               TimerEngine.settings w0 = TimerEngine.settings w /\
               TimerEngine.mode (TimerEngine.state w0) = m /\
               TimerEngine.currentTaskName w0 = TimerEngine.currentTaskName w /\
               TimerEngine.currentTaskPath w0 = TimerEngine.currentTaskPath w /\
               TimerEngine.vault w0 = TimerEngine.vault w).
  { unfold w0. simpl. unfold TimerEngine.start. rewrite Hr. simpl. rewrite Hlm.
    repeat split. }
  destruct H0 as (Hr0 & Hlm0 & Hcfg0 & Hm0 & Hn0 & Hp0 & Hv0).
  destruct (cycle_events_running cs w0 s0 Hr0 Hlm0) as (Hr1 & Hlm1 & Hview1).
  set (w1 := Run.run normalizePath tz (Run.cycle_events cs) w0) in *.
  simpl in Hlm1.
  assert (Hview : TimerEngine.settings w1 = TimerEngine.settings w /\
                  TimerEngine.mode (TimerEngine.state w1) = m /\
                  TimerEngine.vault w1 = TimerEngine.vault w).
  { unfold Run.log_view in Hview1. injection Hview1 as Hc Hmm _ _ _ Hvv.
    rewrite Hc, Hmm, Hvv, Hcfg0, Hm0, Hv0. repeat split. }
  destruct Hview as (Hcfg1 & Hm1 & Hv1).
  assert (Hfin : finished_run =
                 TimerEngine.finish normalizePath tz tPause tEnd tLog tNow w1).
  { unfold finished_run, session. rewrite run_app. reflexivity. }
  assert (Hskip : skipped_run = TimerEngine.skip normalizePath tz tPause tEnd w1).
  { unfold skipped_run, session. rewrite run_app. reflexivity. }
  rewrite Hfin, Hskip, finish_result, skip_result. cbv zeta.
  rewrite Hcfg1, Hm1, Hv1, Hlm1. unfold record, folder, m in *.
  rewrite !endSession_on_record.
  destruct (Run.autoStartNext _ _); simpl; repeat split.
Qed.

End WholeSession.

Lemma whole_session_scenario :
  Vault.files
    (TimerEngine.vault
       (Run.run Scenario.normalizePath Moment.UTC
          ((Run.Start Scenario.t_14_00 Scenario.t_14_00 :: Run.cycle_events Days.one_cycle)
           ++ [Run.Finish Scenario.t_14_25 Scenario.t_14_25 Scenario.t_14_25 Scenario.t_14_25])
          Scenario.loaded))
    !! "Pomodoro_logs/2025-12-21-gentle-pomodoro-log.md" =
  Some ("- 🍅 Focus | Task:: No Task | Start:: 2025-12-21 14:00:00 | End:: 2025-12-21 14:25:00 | Scheduled:: 1500 | Pauses:: ["
        +:+ JS.dquote +:+ "2025-12-21 14:10:00 - 2025-12-21 14:12:00" +:+ JS.dquote +:+
        "] | Total:: 1380 | Status:: finished").
Proof.
  rewrite (proj1 (a_session_is_logged_as_it_ran Scenario.normalizePath Moment.UTC
                    Scenario.loaded Scenario.t_14_00 Scenario.t_14_00 Days.one_cycle
                    Scenario.t_14_25 Scenario.t_14_25 Scenario.t_14_25 Scenario.t_14_25
                    eq_refl eq_refl)).
  vm_compute. reflexivity.
Defined.

(** ** The revised reset and the log *)

Lemma revised_reset_log_view (tNow : Z) (w : TimerEngine.GentlePomoPlugin) :
  Run.log_view (Revised.reset tNow w) = Run.log_view w.
Proof.
  destruct w as [cfg [m r rem tot] ia tgt name path em lm v].
  unfold Revised.reset. simpl. destruct r; reflexivity.
Qed.

Lemma revised_step_log_view (w1 w2 : TimerEngine.GentlePomoPlugin)
    (e : RevisedRun.Event) :
  Run.log_view w1 = Run.log_view w2 ->
  Run.log_view (RevisedRun.step w1 e) = Run.log_view (RevisedRun.step w2 e).
Proof.
  intros H.
  destruct e as [tLog tNow | tLog | now | delta | m minutes | tNow];
    try (simpl; rewrite !revised_reset_log_view; exact H).
  all: destruct w1 as [cfg1 [m1 r1 rem1 tot1] ia1 tgt1 name1 path1 em1 lm1 v1].
  all: destruct w2 as [cfg2 [m2 r2 rem2 tot2] ia2 tgt2 name2 path2 em2 lm2 v2].
  all: unfold Run.log_view in H; simpl in H; injection H as -> -> -> -> -> -> ->; simpl.
  - unfold TimerEngine.start. simpl. destruct r2; reflexivity.
  - unfold TimerEngine.pause. simpl. destruct r2; reflexivity.
  - unfold TimerEngine.tick. simpl. destruct tgt1, tgt2, r2; reflexivity.
  - unfold TimerEngine.addMinutes. cbv zeta. simpl. destruct tgt1, tgt2, r2; reflexivity.
  - unfold TimerEngine.updateDuration. simpl.
    destruct (TimerEngine.mode_eqb m2 m); reflexivity.
Qed.

Lemma revised_run_log_view (events : list RevisedRun.Event)
    (w1 w2 : TimerEngine.GentlePomoPlugin) :
  Run.log_view w1 = Run.log_view w2 ->
  Run.log_view (RevisedRun.run events w1) = Run.log_view (RevisedRun.run events w2).
Proof.
  revert w1 w2. induction events as [|e events IH]; intros w1 w2 H; [exact H|].
  change (RevisedRun.run (e :: events) w1)
    with (RevisedRun.run events (RevisedRun.step w1 e)).
  change (RevisedRun.run (e :: events) w2)
    with (RevisedRun.run events (RevisedRun.step w2 e)).
  apply IH. now apply revised_step_log_view.
Qed.

Lemma revised_step_keeps_record (e : RevisedRun.Event)
    (w : TimerEngine.GentlePomoPlugin) (s : SessionLog) :
  currentSession (TimerEngine.logManager w) = Some s ->
  exists s',
    currentSession (TimerEngine.logManager (RevisedRun.step w e)) = Some s' /\
    startTime s' = startTime s.
Proof.
  intros Hs.
  destruct w as [cfg [m r rem tot] ia tgt name path em lm v]. simpl in Hs.
  destruct e as [tLog tNow | tLog | now | delta | m' minutes | tNow]; simpl.
  - unfold TimerEngine.start. simpl. destruct r; simpl; [eauto|].
    rewrite (startSession_on_active tLog m name _ path lm s Hs).
    destruct (currentPauseStart lm); simpl; eauto.
  - unfold TimerEngine.pause. simpl. destruct r; simpl; [|eauto].
    unfold pauseSession. rewrite Hs. simpl. eauto.
  - unfold TimerEngine.tick. simpl. destruct tgt, r; simpl; eauto.
  - unfold TimerEngine.addMinutes. cbv zeta. simpl. destruct tgt, r; simpl; eauto.
  - unfold TimerEngine.updateDuration. simpl.
    destruct (TimerEngine.mode_eqb m m'); simpl; eauto.
  - unfold Revised.reset. simpl. destruct r; simpl; eauto.
Qed.

Lemma revised_run_keeps_record (events : list RevisedRun.Event)
    (w : TimerEngine.GentlePomoPlugin) (s : SessionLog) :
  currentSession (TimerEngine.logManager w) = Some s ->
  exists s',
    currentSession (TimerEngine.logManager (RevisedRun.run events w)) = Some s' /\
    startTime s' = startTime s.
Proof.
  revert w s. induction events as [|e events IH]; intros w s Hs; [eauto|].
  change (RevisedRun.run (e :: events) w)
    with (RevisedRun.run events (RevisedRun.step w e)).
  destruct (revised_step_keeps_record e w s Hs) as (s1 & Hs1 & Ht1).
  destruct (IH _ s1 Hs1) as (s' & Hs' & Ht'). exists s'. split; [exact Hs'|congruence].
Qed.

(** X11.  In the engine of src/unnamed/part_000, a reset changes nothing of
    what the recorder holds or will write.  After any continuation of start,
    pause, tick, addMinutes, updateDuration and further reset calls, the
    recorder, the vault, the mode, the running flag, the task and the settings
    are the same with and without the reset, so an endSession at that point
    gives the same recorder and the same vault either way; and a record that
    was in progress at the reset is still in progress with its original start
    time, from which its Total will be counted. *)
Theorem revised_reset_is_invisible_in_the_log
    (normalizePath : string -> string) (tz : Moment.t -> Z)
    (tNow : Z) (events : list RevisedRun.Event) (tPause tEnd : Moment.t) (st : Status)
    (w : TimerEngine.GentlePomoPlugin) :
  let w1 := RevisedRun.run events (Revised.reset tNow w) in
  let w2 := RevisedRun.run events w in
  Run.log_view w1 = Run.log_view w2 /\
  endSession normalizePath tz (TimerEngine.logFolderPath (TimerEngine.settings w1))
    tPause tEnd st (TimerEngine.logManager w1) (TimerEngine.vault w1) =
  endSession normalizePath tz (TimerEngine.logFolderPath (TimerEngine.settings w2))
    tPause tEnd st (TimerEngine.logManager w2) (TimerEngine.vault w2) /\
  (forall s, currentSession (TimerEngine.logManager w) = Some s ->
     exists s',
       currentSession (TimerEngine.logManager w1) = Some s' /\
       startTime s' = startTime s).
Proof.
  intros w1 w2.
  assert (Hview : Run.log_view w1 = Run.log_view w2).
  { apply revised_run_log_view. apply revised_reset_log_view. }
  split; [exact Hview|]. split.
  - unfold Run.log_view in Hview. injection Hview as -> _ _ _ _ -> ->. reflexivity.
  - intros s Hs. apply revised_run_keeps_record.
    destruct w as [cfg [m r rem tot] ia tgt name path em lm v].
    unfold Revised.reset. simpl in *. destruct r; exact Hs.
Qed.

Lemma revised_reset_afternoon :
  exists s',
    currentSession
      (TimerEngine.logManager
         (RevisedRun.run Days.revised_afternoon Scenario.running)) = Some s' /\
    startTime s' = Scenario.t_14_00 /\
    pauses s' = [mkPause Scenario.t_14_10 Scenario.t_14_12].
Proof.
  exists (mkSession focus "No Task" None 25 Scenario.t_14_00 None
            [mkPause Scenario.t_14_10 Scenario.t_14_12] cancelled).
  repeat split.
Qed.

(** ** The duration inputs of the settings panel *)

(** X17.  A value typed into the focus input is applied only if parseInt gives a
    number above zero; anything else leaves the whole plugin as it is.  An
    accepted value becomes the configured focus minutes, and the recorder
    (hence the Scheduled minutes of a record in progress), the target, the
    vault, the mode and the running flag never change; in rest mode the timer
    state does not change and no snapshot is emitted.  In focus mode, for a
    value whose duration in milliseconds is within the safe integers of
    JavaScript (at most 150119987579 minutes), the total becomes that
    duration, and the remaining time too when the timer is stopped at the full
    duration, while a session that is counting keeps its remaining time. *)
Theorem focus_input_is_validated (val : option Z) (w : TimerEngine.GentlePomoPlugin) :
  let w' := GentlePomoView.focusInputChange val w in
  let st := TimerEngine.state w in
  let st' := TimerEngine.state w' in
  (val = None -> w' = w) /\
  (forall n, val = Some n -> n <= 0 -> w' = w) /\
  (forall n, val = Some n -> 0 < n ->
     TimerEngine.focusMinutes (TimerEngine.settings w') = n /\
     TimerEngine.breakMinutes (TimerEngine.settings w') =
       TimerEngine.breakMinutes (TimerEngine.settings w) /\
     TimerEngine.logManager w' = TimerEngine.logManager w /\
     TimerEngine.vault w' = TimerEngine.vault w /\
     TimerEngine.targetTime w' = TimerEngine.targetTime w /\
     TimerEngine.mode st' = TimerEngine.mode st /\
     TimerEngine.isRunning st' = TimerEngine.isRunning st /\
     (TimerEngine.mode st = focus -> n * 60000 <= JS.MAX_SAFE_INTEGER ->
        TimerEngine.totalMs st' = n * 60000 /\
        0 < TimerEngine.totalMs st' <= JS.MAX_SAFE_INTEGER /\
        TimerEngine.remainingMs st' =
          (if negb (TimerEngine.isRunning st) &&
              (TimerEngine.remainingMs st =? TimerEngine.totalMs st)%Z
           then n * 60000 else TimerEngine.remainingMs st)) /\
     (TimerEngine.mode st = break ->
        st' = st /\ TimerEngine.emitted w' = TimerEngine.emitted w)).
Proof.
  intros w' st st'. unfold st', w', st, GentlePomoView.focusInputChange.
  split; [intros ->; reflexivity|]. split.
  - intros n -> Hn. destruct (Z.gtb_spec n 0); [lia|reflexivity].
  - intros n -> Hn. destruct (Z.gtb_spec n 0); [|lia].
    destruct w as [cfg [m r rem tot] ia tgt name path em lm v].
    unfold TimerEngine.updateDuration, JS.MAX_SAFE_INTEGER. simpl.
    destruct m; simpl; repeat split; try discriminate; try lia;
      destruct (negb r && (rem =? tot)%Z); simpl; lia.
Qed.

Lemma focus_input_scenario :
  TimerEngine.totalMs
    (TimerEngine.state (GentlePomoView.focusInputChange (Some 50) Scenario.loaded))
    = 3000000 /\
  TimerEngine.remainingMs
    (TimerEngine.state (GentlePomoView.focusInputChange (Some 50) Scenario.loaded))
    = 3000000 /\
  GentlePomoView.focusInputChange (Some 0) Scenario.running = Scenario.running /\
  TimerEngine.remainingMs
    (TimerEngine.state (GentlePomoView.focusInputChange (Some 10) Scenario.running))
    = 1500000.
Proof.
  pose proof (proj2 (proj2 (focus_input_is_validated (Some 50) Scenario.loaded))
                50 eq_refl ltac:(lia)) as H.
  destruct H as (_ & _ & _ & _ & _ & _ & _ & Hfocus & _).
  destruct (Hfocus eq_refl ltac:(unfold JS.MAX_SAFE_INTEGER; lia)) as (Htot & _ & Hrem).
  split; [exact Htot|]. split; [exact Hrem|]. split; reflexivity.
Defined.

(** ** writeLog at the edges of the vault *)

(** X7.  With logging enabled, writeLog always leaves the log folder in
    existence, creating it only when nothing exists at its path.  When the
    path of the day's file is taken by a folder, nothing is written and no
    error is raised: the line is dropped, and the awaited endSession still
    clears the recorder. *)
Theorem writeLog_at_the_edges
    (normalizePath : string -> string) (tz : Moment.t -> Z)
    (folder : string) (s : SessionLog) (e : Moment.t) (v : Vault.t)
    (tPause tEnd : Moment.t) (st : Status) (pending : option Moment.t) :
  folder <> "" ->
  endTime s = Some e ->
  let v' := outcome_vault (writeLog normalizePath tz folder s v) in
  let path := filePath normalizePath tz folder s in
  Vault.exists_ (normalizePath folder) v' = true /\
  (Vault.exists_ (normalizePath folder) v = true -> Vault.folders v' = Vault.folders v) /\
  (Vault.exists_ (normalizePath folder) v = false ->
     Vault.folders v' = {[normalizePath folder]} ∪ Vault.folders v) /\
  (path ∈ Vault.folders v -> Vault.files v !! path = None ->
     writeLog normalizePath tz folder s v = Returned v' /\
     Vault.files v' = Vault.files v /\
     fst (endSession normalizePath tz folder tPause tEnd st (mkLog (Some s) pending) v) =
       mkLog None None).
Proof.
  intros Hfolder He v' path.
  pose proof (writeLog_enabled normalizePath tz folder s e v Hfolder He) as Hw.
  cbv zeta in Hw. fold path in Hw.
  assert (Hv' : v' = outcome_vault (Returned _)) by (unfold v'; now rewrite Hw).
  simpl in Hv'.
  split; [|split; [|split]].
  - destruct (writeLog_extends normalizePath tz folder s v) as [Hdirs Hfiles].
    fold v' in Hdirs, Hfiles.
    destruct (Vault.exists_ (normalizePath folder) v) eqn:Hex.
    + unfold Vault.exists_ in *. apply orb_true_iff in Hex as [Hex|Hex].
      * apply bool_decide_eq_true in Hex. apply orb_true_iff. left.
        apply bool_decide_eq_true. now apply Hdirs.
      * apply bool_decide_eq_true in Hex. destruct Hex as [old Hold].
        destruct (Hfiles _ _ Hold) as [added Hadd].
        apply orb_true_iff. right. apply bool_decide_eq_true. eauto.
    + rewrite Hv'. unfold Vault.exists_. simpl. apply orb_true_iff. left.
      apply bool_decide_eq_true. apply elem_of_union_l. now apply elem_of_singleton.
  - intros Hex. rewrite Hv'. simpl. now rewrite Hex.
  - intros Hex. rewrite Hv'. simpl. now rewrite Hex.
  - intros Hdir Hnone.
    assert (Hfiles : Vault.files v' = Vault.files v).
    { rewrite Hv'. simpl. rewrite Hnone. rewrite bool_decide_eq_true_2; [reflexivity|].
      destruct (Vault.exists_ (normalizePath folder) v); [exact Hdir|].
      now apply elem_of_union_r. }
    split; [unfold v'; now rewrite Hw|]. split; [exact Hfiles|].
    now rewrite (endSession_active normalizePath tz folder tPause tEnd st
                   (mkLog (Some s) pending) s v eq_refl).
Qed.

Lemma writeLog_edges_scenario :
  Vault.exists_ "Pomodoro_logs"
    (outcome_vault
       (writeLog Scenario.normalizePath Moment.UTC Scenario.logFolder Scenario.record
          Vault.empty)) = true.
Proof.
  refine (proj1 (writeLog_at_the_edges Scenario.normalizePath Moment.UTC
                   Scenario.logFolder Scenario.record Scenario.t_14_25 Vault.empty
                   Scenario.t_14_25 Scenario.t_14_25 finished None _ eq_refl)).
  intros H; discriminate H.
Defined.
